(** * Project management core of the stack server

    A shallow embedding of [packages/stack-server/src/lib/projects.tsx]:
    the provider code mappers, the access guard ([isProjectAdmin],
    [listProjectIds]), the assembler ([projectJsonFromDbType]), the
    reconciler ([updateProject], [getProject]) and the creator
    ([createProject]), followed by the properties stated about them.

    Conventions.
    - A JavaScript value that the code inspects dynamically (the
      administrator's [serverMetadata]) is a [JsValue].
    - A function that may throw returns a [result].
    - Functions that touch storage pass a [Store] explicitly and give back
      an [Outcome]: the result, the store afterwards and the lines written
      with [console.error]. *)

From Stdlib Require Import String Ascii List ZArith Bool Arith Lia.
From Stdlib Require Import DecimalString.
Import ListNotations.
Open Scope string_scope.

Set Implicit Arguments.

(** ** Results of code that may throw *)

Inductive result (A : Type) : Type :=
| Returns (a : A)
| Throws (msg : string).
Arguments Returns {A} a.
Arguments Throws {A} msg.

Definition bind {A B : Type} (r : result A) (k : A -> result B) : result B :=
  match r with
  | Returns a => k a
  | Throws msg => Throws msg
  end.

Notation "'do' x <- r ; k" := (bind r (fun x => k))
  (at level 10, x name, r at level 100, k at level 200).

(** ** JavaScript values *)

#[warnings="-register-all"]
Inductive JsValue : Type :=
| JsUndefined
| JsNull
| JsBool (b : bool)
| JsNumber (n : Z)
| JsString (s : string)
| JsArray (items : list JsValue)
| JsObject (props : list (string * JsValue)).

Module Js.

(** [typeof v] *)
Definition typeof (v : JsValue) : string :=
  match v with
  | JsUndefined => "undefined"
  | JsNull => "object"
  | JsBool _ => "boolean"
  | JsNumber _ => "number"
  | JsString _ => "string"
  | JsArray _ => "object"
  | JsObject _ => "object"
  end.

(** [!v] is [negb (truthy v)] *)
Definition truthy (v : JsValue) : bool :=
  match v with
  | JsUndefined => false
  | JsNull => false
  | JsBool b => b
  | JsNumber n => negb (Z.eqb n 0)
  | JsString s => negb (String.eqb s "")
  | JsArray _ => true
  | JsObject _ => true
  end.

(** First binding of a key in a property list. *)
Fixpoint lookup (k : string) (props : list (string * JsValue)) : option JsValue :=
  match props with
  | [] => None
  | (k', v) :: rest => if String.eqb k k' then Some v else lookup k rest
  end.

(** The property key of the array index [i]. *)
Definition index_key (i : nat) : string :=
  NilEmpty.string_of_uint (Nat.to_uint i).

(** The single-character strings a string iterates over. *)
Fixpoint chars (s : string) : list JsValue :=
  match s with
  | EmptyString => []
  | String c rest => JsString (String c EmptyString) :: chars rest
  end.

(** The own enumerable properties of a list of items, keyed by index. *)
Definition indexed (items : list JsValue) : list (string * JsValue) :=
  combine (map index_key (seq 0 (length items))) items.

(** [k in v], for [v] an object or an array. *)
Definition has_property (k : string) (v : JsValue) : bool :=
  match v with
  | JsObject props =>
      match lookup k props with Some _ => true | None => false end
  | JsArray items =>
      String.eqb k "length" ||
      match lookup k (indexed items) with Some _ => true | None => false end
  | _ => false
  end.

(** [v?.k] *)
Definition get (k : string) (v : JsValue) : JsValue :=
  match v with
  | JsObject props =>
      match lookup k props with Some x => x | None => JsUndefined end
  | JsArray items =>
      if String.eqb k "length" then JsNumber (Z.of_nat (length items))
      else match lookup k (indexed items) with Some x => x | None => JsUndefined end
  | JsString s =>
      if String.eqb k "length" then JsNumber (Z.of_nat (String.length s))
      else match lookup k (indexed (chars s)) with Some x => x | None => JsUndefined end
  | _ => JsUndefined
  end.

(** [v ?? d] *)
Definition nullish (v d : JsValue) : JsValue :=
  match v with
  | JsUndefined | JsNull => d
  | _ => v
  end.

(** [{...v}]: the own enumerable properties copied by an object spread. *)
Definition spread_object (v : JsValue) : list (string * JsValue) :=
  match v with
  | JsObject props => props
  | JsArray items => indexed items
  | JsString s => indexed (chars s)
  | _ => []
  end.

(** [[...v]]: the items of an iterable; anything else is a TypeError. *)
Definition spread_array (v : JsValue) : result (list JsValue) :=
  match v with
  | JsArray items => Returns items
  | JsString s => Returns (chars s)
  | _ => Throws "TypeError: value is not iterable"
  end.

(** Writing the key [k] of an object literal after a spread: an existing
    key keeps its place and takes the new value, a new key goes last. *)
Fixpoint set (k : string) (v : JsValue) (props : list (string * JsValue))
  : list (string * JsValue) :=
  match props with
  | [] => [(k, v)]
  | (k', v') :: rest =>
      if String.eqb k k' then (k', v) :: rest else (k', v') :: set k v rest
  end.

Definition is_string (v : JsValue) : bool :=
  match v with JsString _ => true | _ => false end.

(** The strings of an array of strings. *)
Definition strings (v : JsValue) : list string :=
  match v with
  | JsArray items =>
      flat_map (fun x => match x with JsString s => [s] | _ => [] end) items
  | _ => []
  end.

End Js.

(** ** Provider code mapper *)

Inductive ProxiedOauthProviderType : Type :=
| Proxied_GITHUB | Proxied_FACEBOOK | Proxied_GOOGLE | Proxied_MICROSOFT.

Inductive StandardOauthProviderType : Type :=
| Standard_GITHUB | Standard_FACEBOOK | Standard_GOOGLE | Standard_MICROSOFT.

(** Modelled from the spec: the constant [sharedProviders] of
    [@stackframe/stack-shared], which is not in the source tree; the spec
    names the shared vocabulary as the [shared-] prefixed counterparts of
    the four family names. *)
Definition sharedProviders : list string :=
  ["shared-github"; "shared-google"; "shared-facebook"; "shared-microsoft"].

(** Modelled from the spec: the constant [standardProviders] of
    [@stackframe/stack-shared], which is not in the source tree; the spec
    names the standard vocabulary [github], [facebook], [google],
    [microsoft]. *)
Definition standardProviders : list string :=
  ["github"; "facebook"; "google"; "microsoft"].

(** [list.includes(x)] on strings *)
Definition includes (l : list string) (x : string) : bool :=
  existsb (String.eqb x) l.

(** The mappers index an object literal with their argument; a key that the
    literal lacks yields [undefined], here [None]. *)
Definition toDBSharedProvider (type : string) : option ProxiedOauthProviderType :=
  if String.eqb type "shared-github" then Some Proxied_GITHUB
  else if String.eqb type "shared-google" then Some Proxied_GOOGLE
  else if String.eqb type "shared-facebook" then Some Proxied_FACEBOOK
  else if String.eqb type "shared-microsoft" then Some Proxied_MICROSOFT
  else None.

Definition toDBStandardProvider (type : string) : option StandardOauthProviderType :=
  if String.eqb type "github" then Some Standard_GITHUB
  else if String.eqb type "facebook" then Some Standard_FACEBOOK
  else if String.eqb type "google" then Some Standard_GOOGLE
  else if String.eqb type "microsoft" then Some Standard_MICROSOFT
  else None.

Definition fromDBSharedProvider (type : ProxiedOauthProviderType) : string :=
  match type with
  | Proxied_GITHUB => "shared-github"
  | Proxied_GOOGLE => "shared-google"
  | Proxied_FACEBOOK => "shared-facebook"
  | Proxied_MICROSOFT => "shared-microsoft"
  end.

Definition fromDBStandardProvider (type : StandardOauthProviderType) : string :=
  match type with
  | Standard_GITHUB => "github"
  | Standard_FACEBOOK => "facebook"
  | Standard_GOOGLE => "google"
  | Standard_MICROSOFT => "microsoft"
  end.

(** ** Project access guard *)

Module ServerUserJson.
Record t : Type := Build {
  projectId : string;
  id : string;
  serverMetadata : JsValue;
}.
End ServerUserJson.

Module DecodedAccessToken.
Record t : Type := Build {
  userId : string;
  projectId : string;
}.
End DecodedAccessToken.

Definition isStringArray (value : JsValue) : bool :=
  match value with
  | JsArray items => forallb Js.is_string items
  | _ => false
  end.

Definition listProjectIds (projectUser : ServerUserJson.t) : result (list string) :=
  let serverMetadata := ServerUserJson.serverMetadata projectUser in
  if negb (String.eqb (Js.typeof serverMetadata) "object")
     || negb (negb (Js.truthy serverMetadata)
              || Js.has_property "managedProjectIds" serverMetadata)
  then Throws "Invalid server metadata, did something go wrong?"
  else
    let managedProjectIds :=
      Js.nullish (Js.get "managedProjectIds" serverMetadata) (JsArray []) in
    if negb (isStringArray managedProjectIds)
    then Throws "Invalid server metadata, did something go wrong? Expected string array"
    else Returns (Js.strings managedProjectIds).

Section AccessGuard.

(** The collaborators of the guard: [decodeAccessToken] of
    [./access-token], which throws on a token it cannot decode, and
    [getServerUser] of [./users], which answers [null] when the user does
    not exist. *)
Variable decodeAccessToken : string -> result DecodedAccessToken.t.
Variable getServerUser : string -> string -> option ServerUserJson.t.

Definition isProjectAdmin (projectId adminAccessToken : string) : result bool :=
  match decodeAccessToken adminAccessToken with
  | Throws _ => Returns false
  | Returns decoded =>
      let userId := DecodedAccessToken.userId decoded in
      let accessTokenProjectId := DecodedAccessToken.projectId decoded in
      if negb (String.eqb accessTokenProjectId "internal") then Returns false
      else
        match getServerUser "internal" userId with
        | None => Returns false
        | Some projectUser =>
            do allProjects <- listProjectIds projectUser;
            Returns (includes allProjects projectId)
        end
  end.

End AccessGuard.

(** ** Storage rows

    The tables of the relational schema that the code reads and writes.
    A table is the list of its rows in storage order.  The sub-records of
    a provider config and of an email service config, which the code only
    reaches through their parent row, are fields of the parent, [None]
    when the sub-record is absent.  A project's config is one-to-one with
    the project and is kept inside the project row, with its own id.

    The schema file is not part of the source tree: unique keys and
    foreign keys are not enforced by the tables below, and a property
    that depends on a key being fresh says so. *)

Module ProxiedOauthConfig.
Record t : Type := Build {
  type : ProxiedOauthProviderType;
}.
End ProxiedOauthConfig.

Module StandardOauthConfig.
Record t : Type := Build {
  type : StandardOauthProviderType;
  clientId : string;
  clientSecret : string;
  tenantId : option string;
}.
End StandardOauthConfig.

Module OauthProviderConfig.
Record t : Type := Build {
  projectConfigId : string;
  id : string;
  proxiedOauthConfig : option ProxiedOauthConfig.t;
  standardOauthConfig : option StandardOauthConfig.t;
}.
End OauthProviderConfig.

(** The proxied email sub-record has no column that the code reads. *)
Inductive ProxiedEmailServiceConfig : Type :=
| ProxiedEmailServiceConfigRow.

Module StandardEmailServiceConfig.
Record t : Type := Build {
  host : string;
  port : Z;
  username : string;
  password : string;
  senderEmail : string;
}.
End StandardEmailServiceConfig.

Module EmailServiceConfig.
Record t : Type := Build {
  senderName : string;
  proxiedEmailServiceConfig : option ProxiedEmailServiceConfig;
  standardEmailServiceConfig : option StandardEmailServiceConfig.t;
}.
End EmailServiceConfig.

Module ProjectDomain.
Record t : Type := Build {
  projectConfigId : string;
  domain : string;
  handlerPath : string;
}.
End ProjectDomain.

Module ProjectConfig.
Record t : Type := Build {
  id : string;
  allowLocalhost : bool;
  credentialEnabled : bool;
  emailServiceConfig : option EmailServiceConfig.t;
}.
End ProjectConfig.

Module Project.
Record t : Type := Build {
  id : string;
  displayName : string;
  description : option string;
  createdAt : Z;
  isProductionMode : bool;
  config : ProjectConfig.t;
}.
End Project.

Module ProjectUser.
Record t : Type := Build {
  projectId : string;
  projectUserId : string;
  serverMetadata : JsValue;
}.
End ProjectUser.

Module Store.
Record t : Type := Build {
  projects : list Project.t;
  oauthProviderConfigs : list OauthProviderConfig.t;
  projectDomains : list ProjectDomain.t;
  projectUsers : list ProjectUser.t;
}.
End Store.

(** ** A project read with [fullProjectInclude] *)

Module ProjectConfigDB.
Record t : Type := Build {
  id : string;
  allowLocalhost : bool;
  credentialEnabled : bool;
  oauthProviderConfigs : list OauthProviderConfig.t;
  emailServiceConfig : option EmailServiceConfig.t;
  domains : list ProjectDomain.t;
}.
End ProjectConfigDB.

Module ProjectDB.
Record t : Type := Build {
  id : string;
  displayName : string;
  description : option string;
  createdAt : Z;
  isProductionMode : bool;
  config : ProjectConfigDB.t;
  count_users : nat;
}.
End ProjectDB.

(** ** The project view handed to callers *)

Inductive OauthProviderConfigJson : Type :=
| SharedProviderJson (id type : string)
| StandardProviderJson (id type clientId clientSecret : string)
    (tenantId : option string).

Inductive EmailConfigJson : Type :=
| SharedEmailJson (senderName : string)
| StandardEmailJson (host : string) (port : Z)
    (username password senderEmail senderName : string).

(** The [type] field of an email view. *)
Definition emailType (e : EmailConfigJson) : string :=
  match e with
  | SharedEmailJson _ => "shared"
  | StandardEmailJson _ _ _ _ _ _ => "standard"
  end.

Module DomainConfigJson.
Record t : Type := Build {
  domain : string;
  handlerPath : string;
}.
End DomainConfigJson.

Module EvaluatedConfig.
Record t : Type := Build {
  id : string;
  allowLocalhost : bool;
  credentialEnabled : bool;
  domains : list DomainConfigJson.t;
  oauthProviders : list OauthProviderConfigJson;
  emailConfig : option EmailConfigJson;
}.
End EvaluatedConfig.

Module ProjectJson.
Record t : Type := Build {
  id : string;
  displayName : string;
  description : option string;
  createdAtMillis : Z;
  userCount : nat;
  isProductionMode : bool;
  evaluatedConfig : EvaluatedConfig.t;
}.
End ProjectJson.

(** ** Project assembler *)

(** The assignment to [emailConfig]: the second [if] is not an [else], so a
    standard sub-record replaces what the first [if] assigned. *)
Definition emailConfigFromDbType (emailServiceConfig : option EmailServiceConfig.t)
  : option EmailConfigJson :=
  match emailServiceConfig with
  | None => None
  | Some esc =>
      let emailConfig :=
        match EmailServiceConfig.proxiedEmailServiceConfig esc with
        | Some _ => Some (SharedEmailJson (EmailServiceConfig.senderName esc))
        | None => None
        end in
      match EmailServiceConfig.standardEmailServiceConfig esc with
      | Some standardEmailConfig =>
          Some (StandardEmailJson
                  (StandardEmailServiceConfig.host standardEmailConfig)
                  (StandardEmailServiceConfig.port standardEmailConfig)
                  (StandardEmailServiceConfig.username standardEmailConfig)
                  (StandardEmailServiceConfig.password standardEmailConfig)
                  (StandardEmailServiceConfig.senderEmail standardEmailConfig)
                  (EmailServiceConfig.senderName esc))
      | None => emailConfig
      end
  end.

(** [tenantId || undefined] *)
Definition tenantIdOrUndefined (tenantId : option string) : option string :=
  match tenantId with
  | Some s => if String.eqb s "" then None else Some s
  | None => None
  end.

Definition ignoredProviderMessage (providerId projectId : string) : string :=
  "Exactly one of the provider configs should be set on provider config '"
  ++ providerId ++ "' of project '" ++ projectId ++ "'. Ignoring it".

(** The callback of [flatMap]: the views of one provider row, and what it
    writes with [console.error]. *)
Definition oauthProviderFromDbType (projectId : string) (provider : OauthProviderConfig.t)
  : list OauthProviderConfigJson * list string :=
  match OauthProviderConfig.proxiedOauthConfig provider with
  | Some proxied =>
      ([SharedProviderJson (OauthProviderConfig.id provider)
          (fromDBSharedProvider (ProxiedOauthConfig.type proxied))], [])
  | None =>
      match OauthProviderConfig.standardOauthConfig provider with
      | Some standard =>
          ([StandardProviderJson (OauthProviderConfig.id provider)
              (fromDBStandardProvider (StandardOauthConfig.type standard))
              (StandardOauthConfig.clientId standard)
              (StandardOauthConfig.clientSecret standard)
              (tenantIdOrUndefined (StandardOauthConfig.tenantId standard))], [])
      | None =>
          ([], [ignoredProviderMessage (OauthProviderConfig.id provider) projectId])
      end
  end.

Definition domainFromDbType (domain : ProjectDomain.t) : DomainConfigJson.t :=
  DomainConfigJson.Build (ProjectDomain.domain domain) (ProjectDomain.handlerPath domain).

(** The view of a project, and the lines logged while assembling it. *)
Definition projectJsonFromDbType (project : ProjectDB.t) : ProjectJson.t * list string :=
  let emailConfig :=
    emailConfigFromDbType (ProjectConfigDB.emailServiceConfig (ProjectDB.config project)) in
  let providers :=
    map (oauthProviderFromDbType (ProjectDB.id project))
        (ProjectConfigDB.oauthProviderConfigs (ProjectDB.config project)) in
  (ProjectJson.Build
     (ProjectDB.id project)
     (ProjectDB.displayName project)
     (ProjectDB.description project)
     (ProjectDB.createdAt project)
     (ProjectDB.count_users project)
     (ProjectDB.isProductionMode project)
     (EvaluatedConfig.Build
        (ProjectConfigDB.id (ProjectDB.config project))
        (ProjectConfigDB.allowLocalhost (ProjectDB.config project))
        (ProjectConfigDB.credentialEnabled (ProjectDB.config project))
        (map domainFromDbType (ProjectConfigDB.domains (ProjectDB.config project)))
        (flat_map fst providers)
        emailConfig),
   flat_map snd providers).

(** ** Storage queries *)

(** The relations that [fullProjectInclude] joins to a project row. *)
Definition includeFull (st : Store.t) (row : Project.t) : ProjectDB.t :=
  let config := Project.config row in
  ProjectDB.Build
    (Project.id row)
    (Project.displayName row)
    (Project.description row)
    (Project.createdAt row)
    (Project.isProductionMode row)
    (ProjectConfigDB.Build
       (ProjectConfig.id config)
       (ProjectConfig.allowLocalhost config)
       (ProjectConfig.credentialEnabled config)
       (filter (fun p => String.eqb (OauthProviderConfig.projectConfigId p)
                                    (ProjectConfig.id config))
               (Store.oauthProviderConfigs st))
       (ProjectConfig.emailServiceConfig config)
       (filter (fun d => String.eqb (ProjectDomain.projectConfigId d)
                                    (ProjectConfig.id config))
               (Store.projectDomains st)))
    (length (filter (fun u => String.eqb (ProjectUser.projectId u) (Project.id row))
                    (Store.projectUsers st))).

(** [prismaClient.project.findUnique({ where: { id }, include: fullProjectInclude })] *)
Definition project_findUnique (st : Store.t) (id : string) : option ProjectDB.t :=
  option_map (includeFull st)
    (find (fun p => String.eqb (Project.id p) id) (Store.projects st)).

(** [prismaClient.projectDomain.findMany({ where: { projectConfigId } })] *)
Definition projectDomain_findMany (st : Store.t) (projectConfigId : string)
  : list ProjectDomain.t :=
  filter (fun d => String.eqb (ProjectDomain.projectConfigId d) projectConfigId)
         (Store.projectDomains st).

(** [tx.projectUser.findUniqueOrThrow({ where: { projectId_projectUserId } })] *)
Definition projectUser_findUniqueOrThrow (st : Store.t) (projectId projectUserId : string)
  : result ProjectUser.t :=
  match find (fun u => String.eqb (ProjectUser.projectId u) projectId
                       && String.eqb (ProjectUser.projectUserId u) projectUserId)
             (Store.projectUsers st) with
  | Some u => Returns u
  | None => Throws "No ProjectUser found"
  end.

(** ** Deferred storage operations

    [updateProject] collects the operations it wants in the array
    [transaction] and hands the array to [prismaClient.$transaction], which
    runs them in order as one unit. *)

Inductive PrismaOp : Type :=
| ProjectDomain_deleteMany (projectConfigId : string)
| ProjectDomain_create (data : ProjectDomain.t)
| OauthProviderConfig_deleteMany (projectConfigId : string)
| OauthProviderConfig_createProxied (projectConfigId id : string)
    (type : option ProxiedOauthProviderType)
| OauthProviderConfig_createStandard (projectConfigId id : string)
    (type : option StandardOauthProviderType)
    (clientId clientSecret : string) (tenantId : option string)
| ProjectConfig_update_credentialEnabled (id : string) (credentialEnabled : bool)
| Project_update_isProductionMode (id : string) (isProductionMode : bool).

Definition set_projects (st : Store.t) (projects : list Project.t) : Store.t :=
  Store.Build projects (Store.oauthProviderConfigs st)
    (Store.projectDomains st) (Store.projectUsers st).

Definition set_oauthProviderConfigs (st : Store.t)
  (rows : list OauthProviderConfig.t) : Store.t :=
  Store.Build (Store.projects st) rows (Store.projectDomains st) (Store.projectUsers st).

Definition set_projectDomains (st : Store.t) (rows : list ProjectDomain.t) : Store.t :=
  Store.Build (Store.projects st) (Store.oauthProviderConfigs st) rows
    (Store.projectUsers st).

Definition set_projectUsers (st : Store.t) (rows : list ProjectUser.t) : Store.t :=
  Store.Build (Store.projects st) (Store.oauthProviderConfigs st)
    (Store.projectDomains st) rows.

Definition with_credentialEnabled (b : bool) (p : Project.t) : Project.t :=
  let c := Project.config p in
  Project.Build (Project.id p) (Project.displayName p) (Project.description p)
    (Project.createdAt p) (Project.isProductionMode p)
    (ProjectConfig.Build (ProjectConfig.id c) (ProjectConfig.allowLocalhost c) b
       (ProjectConfig.emailServiceConfig c)).

Definition with_isProductionMode (b : bool) (p : Project.t) : Project.t :=
  Project.Build (Project.id p) (Project.displayName p) (Project.description p)
    (Project.createdAt p) b (Project.config p).

(** An [update] changes the rows its [where] selects and throws when it
    selects none. *)
Definition update_where {A : Type} (sel : A -> bool) (f : A -> A) (rows : list A)
  : result (list A) :=
  if existsb sel rows
  then Returns (map (fun r => if sel r then f r else r) rows)
  else Throws "Record to update not found".

(** The effect of one operation.  A [create] whose required [type] is
    [undefined] is rejected by the client. *)
Definition exec (op : PrismaOp) (st : Store.t) : result Store.t :=
  match op with
  | ProjectDomain_deleteMany projectConfigId =>
      Returns (set_projectDomains st
        (filter (fun d => negb (String.eqb (ProjectDomain.projectConfigId d) projectConfigId))
                (Store.projectDomains st)))
  | ProjectDomain_create data =>
      Returns (set_projectDomains st (Store.projectDomains st ++ [data]))
  | OauthProviderConfig_deleteMany projectConfigId =>
      Returns (set_oauthProviderConfigs st
        (filter (fun p => negb (String.eqb (OauthProviderConfig.projectConfigId p)
                                            projectConfigId))
                (Store.oauthProviderConfigs st)))
  | OauthProviderConfig_createProxied projectConfigId id None =>
      Throws "Argument type is missing"
  | OauthProviderConfig_createProxied projectConfigId id (Some type) =>
      Returns (set_oauthProviderConfigs st
        (Store.oauthProviderConfigs st ++
         [OauthProviderConfig.Build projectConfigId id
            (Some (ProxiedOauthConfig.Build type)) None]))
  | OauthProviderConfig_createStandard projectConfigId id None _ _ _ =>
      Throws "Argument type is missing"
  | OauthProviderConfig_createStandard projectConfigId id (Some type)
      clientId clientSecret tenantId =>
      Returns (set_oauthProviderConfigs st
        (Store.oauthProviderConfigs st ++
         [OauthProviderConfig.Build projectConfigId id None
            (Some (StandardOauthConfig.Build type clientId clientSecret tenantId))]))
  | ProjectConfig_update_credentialEnabled id credentialEnabled =>
      do projects <-
        update_where (fun p => String.eqb (ProjectConfig.id (Project.config p)) id)
          (with_credentialEnabled credentialEnabled) (Store.projects st);
      Returns (set_projects st projects)
  | Project_update_isProductionMode id isProductionMode =>
      do projects <-
        update_where (fun p => String.eqb (Project.id p) id)
          (with_isProductionMode isProductionMode) (Store.projects st);
      Returns (set_projects st projects)
  end.

(** [prismaClient.$transaction(ops)]: the operations in order; the first
    one that throws aborts the unit. *)
Fixpoint transaction_run (ops : list PrismaOp) (st : Store.t) : result Store.t :=
  match ops with
  | [] => Returns st
  | op :: rest => do st' <- exec op st; transaction_run rest st'
  end.

(** ** Outcomes of the exported storage functions *)

Record Outcome (A : Type) : Type := MkOutcome {
  outcome_result : result A;
  outcome_store : Store.t;
  outcome_log : list string;
}.

(** ** Project reconciler *)

Module OauthProviderUpdateOptions.
(** [clientId], [clientSecret] and [tenantId] belong to the entries of a
    standard type; the code never reads them on another entry. *)
Record t : Type := Build {
  id : string;
  type : string;
  clientId : string;
  clientSecret : string;
  tenantId : option string;
}.
End OauthProviderUpdateOptions.

Module ConfigUpdateOptions.
Record t : Type := Build {
  domains : option (list DomainConfigJson.t);
  oauthProviders : option (list OauthProviderUpdateOptions.t);
  credentialEnabled : option bool;
}.
End ConfigUpdateOptions.

Module ProjectUpdateOptions.
Record t : Type := Build {
  isProductionMode : option bool;
  config : option ConfigUpdateOptions.t;
}.
(** [{}] *)
Definition empty : t := Build None None.
End ProjectUpdateOptions.

(** [options.config?.f] *)
Definition config_field {A : Type} (f : ConfigUpdateOptions.t -> option A)
  (options : ProjectUpdateOptions.t) : option A :=
  match ProjectUpdateOptions.config options with
  | Some c => f c
  | None => None
  end.

Definition invalidProviderMessage (type : string) : string :=
  "Invalid provider type '" ++ type ++ "'".

(** The operations pushed for the [domains] group.  The delete and the
    creates are keyed by [projectId]. *)
Definition domainOps (projectId : string) (newDomains : list DomainConfigJson.t)
  : list PrismaOp :=
  ProjectDomain_deleteMany projectId ::
  map (fun domainConfig =>
         ProjectDomain_create
           (ProjectDomain.Build projectId
              (DomainConfigJson.domain domainConfig)
              (DomainConfigJson.handlerPath domainConfig)))
      newDomains.

(** The callback of [oauthProviders.forEach]: what one entry pushes, and
    what it writes with [console.error]. *)
Definition oauthProviderOps (projectConfigId : string)
  (providerConfig : OauthProviderUpdateOptions.t) : list PrismaOp * list string :=
  let type := OauthProviderUpdateOptions.type providerConfig in
  if includes sharedProviders type then
    ([OauthProviderConfig_createProxied projectConfigId
        (OauthProviderUpdateOptions.id providerConfig)
        (toDBSharedProvider type)], [])
  else if includes standardProviders type then
    ([OauthProviderConfig_createStandard projectConfigId
        (OauthProviderUpdateOptions.id providerConfig)
        (toDBStandardProvider type)
        (OauthProviderUpdateOptions.clientId providerConfig)
        (OauthProviderUpdateOptions.clientSecret providerConfig)
        (OauthProviderUpdateOptions.tenantId providerConfig)], [])
  else ([], [invalidProviderMessage type]).

(** The array [transaction] that [updateProject] builds for an existing
    project, and the lines logged while building it. *)
Definition updateTransaction (st : Store.t) (project : ProjectDB.t) (projectId : string)
  (options : ProjectUpdateOptions.t) : list PrismaOp * list string :=
  let configId := ProjectConfigDB.id (ProjectDB.config project) in
  let domains :=
    match config_field ConfigUpdateOptions.domains options with
    | Some newDomains =>
        let currentDomains := projectDomain_findMany st configId in
        domainOps projectId newDomains
    | None => []
    end in
  let providers :=
    match config_field ConfigUpdateOptions.oauthProviders options with
    | Some oauthProviders =>
        let pushed := map (oauthProviderOps configId) oauthProviders in
        (OauthProviderConfig_deleteMany configId :: flat_map fst pushed,
         flat_map snd pushed)
    | None => ([], [])
    end in
  let credential :=
    match config_field ConfigUpdateOptions.credentialEnabled options with
    | Some b => [ProjectConfig_update_credentialEnabled configId b]
    | None => []
    end in
  let production :=
    match ProjectUpdateOptions.isProductionMode options with
    | Some b => [Project_update_isProductionMode projectId b]
    | None => []
    end in
  ((domains ++ fst providers ++ credential ++ production)%list, snd providers).

Definition updateProject (st : Store.t) (projectId : string)
  (options : ProjectUpdateOptions.t) : Outcome (option ProjectJson.t) :=
  match project_findUnique st projectId with
  | None => MkOutcome (Returns None) st []
  | Some project =>
      let (transaction, logged) := updateTransaction st project projectId options in
      match transaction_run transaction st with
      | Throws msg => MkOutcome (Throws msg) st logged
      | Returns st' =>
          match project_findUnique st' projectId with
          | None => MkOutcome (Returns None) st' logged
          | Some updatedProject =>
              let (json, warned) := projectJsonFromDbType updatedProject in
              MkOutcome (Returns (Some json)) st' (logged ++ warned)%list
          end
      end
  end.

Definition getProject (st : Store.t) (projectId : string)
  : Outcome (option ProjectJson.t) :=
  updateProject st projectId ProjectUpdateOptions.empty.

(** ** Project creator *)

Module ProjectOptions.
Record t : Type := Build {
  displayName : string;
  description : option string;
  allowLocalhost : bool;
  credentialEnabled : bool;
}.
End ProjectOptions.

Definition upper_ascii (c : ascii) : ascii :=
  let n := nat_of_ascii c in
  if (97 <=? n)%nat && (n <=? 122)%nat then ascii_of_nat (n - 32) else c.

(** Modelled from the spec: [typedToUppercase] of
    [@stackframe/stack-shared/dist/utils/strings], which is not in the
    source tree; the creator uses "the family's own name as both provider
    slug and mapped type", the mapped type being the name in upper case. *)
Fixpoint typedToUppercase (s : string) : string :=
  match s with
  | EmptyString => EmptyString
  | String c rest => String (upper_ascii c) (typedToUppercase rest)
  end.

(** The member of the storage enum with the given name, as the client
    resolves the string it is handed. *)
Definition proxiedTypeOfName (name : string) : option ProxiedOauthProviderType :=
  if String.eqb name "GITHUB" then Some Proxied_GITHUB
  else if String.eqb name "FACEBOOK" then Some Proxied_FACEBOOK
  else if String.eqb name "GOOGLE" then Some Proxied_GOOGLE
  else if String.eqb name "MICROSOFT" then Some Proxied_MICROSOFT
  else None.

(** The nested [oauthProviderConfigs.create]: one row with a proxied
    sub-record per id; a type that is no member of the enum is rejected. *)
Fixpoint proxiedProviderRows (projectConfigId : string) (ids : list string)
  : result (list OauthProviderConfig.t) :=
  match ids with
  | [] => Returns []
  | id :: rest =>
      match proxiedTypeOfName (typedToUppercase id) with
      | None => Throws "Invalid value for argument type"
      | Some type =>
          do rows <- proxiedProviderRows projectConfigId rest;
          Returns (OauthProviderConfig.Build projectConfigId id
                     (Some (ProxiedOauthConfig.Build type)) None :: rows)
      end
  end.

Definition with_serverMetadata (serverMetadata : JsValue) (u : ProjectUser.t)
  : ProjectUser.t :=
  ProjectUser.Build (ProjectUser.projectId u) (ProjectUser.projectUserId u) serverMetadata.

(** [serverMetadataTx?.managedProjectIds ?? []] *)
Definition managedProjectIdsTx (serverMetadataTx : JsValue) : JsValue :=
  Js.nullish (Js.get "managedProjectIds" serverMetadataTx) (JsArray []).

(** The callback of [prismaClient.$transaction] in [createProject].
    [uuid] is what [generateUuid()] returns, [configId] the id that
    storage gives the new config row and [now] its creation time. *)
Definition createProjectTx (st : Store.t) (uuid configId : string) (now : Z)
  (projectUser : ServerUserJson.t) (projectOptions : ProjectOptions.t)
  : result (ProjectDB.t * Store.t) :=
  do providers <-
    proxiedProviderRows configId ["github"; "facebook"; "google"; "microsoft"];
  let row :=
    Project.Build uuid
      (ProjectOptions.displayName projectOptions)
      (ProjectOptions.description projectOptions)
      now false
      (ProjectConfig.Build configId
         (ProjectOptions.allowLocalhost projectOptions)
         (ProjectOptions.credentialEnabled projectOptions)
         None) in
  let st1 :=
    Store.Build (Store.projects st ++ [row])
      (Store.oauthProviderConfigs st ++ providers)
      (Store.projectDomains st) (Store.projectUsers st) in
  let project := includeFull st1 row in
  do projectUserTx <-
    projectUser_findUniqueOrThrow st1 "internal" (ServerUserJson.id projectUser);
  let serverMetadataTx :=
    Js.nullish (ProjectUser.serverMetadata projectUserTx) (JsObject []) in
  let spread := Js.spread_object (Js.nullish serverMetadataTx (JsObject [])) in
  do managed <- Js.spread_array (managedProjectIdsTx serverMetadataTx);
  let serverMetadata :=
    JsObject (Js.set "managedProjectIds"
                (JsArray (managed ++ [JsString (ProjectDB.id project)])) spread) in
  do users <-
    update_where
      (fun u => String.eqb (ProjectUser.projectId u) "internal"
                && String.eqb (ProjectUser.projectUserId u)
                              (ProjectUser.projectUserId projectUserTx))
      (with_serverMetadata serverMetadata) (Store.projectUsers st1);
  Returns (project, set_projectUsers st1 users).

Definition createProject (st : Store.t) (uuid configId : string) (now : Z)
  (projectUser : ServerUserJson.t) (projectOptions : ProjectOptions.t)
  : Outcome ProjectJson.t :=
  if negb (String.eqb (ServerUserJson.projectId projectUser) "internal")
  then MkOutcome (Throws "Only internal project users can create projects") st []
  else
    match createProjectTx st uuid configId now projectUser projectOptions with
    | Throws msg => MkOutcome (Throws msg) st []
    | Returns (project, st') =>
        let (json, warned) := projectJsonFromDbType project in
        MkOutcome (Returns json) st' warned
    end.

(** ** The effect of a reconciliation, in closed form *)

(** The rows that one submitted provider entry leaves in the provider
    table: an entry of a shared type leaves a row with a proxied sub-record
    only, an entry of a standard type a row with a standard sub-record that
    carries the client id, the client secret and the tenant id, any other
    entry nothing. *)
Definition committedRows (projectConfigId : string)
  (providerConfig : OauthProviderUpdateOptions.t) : list OauthProviderConfig.t :=
  let type := OauthProviderUpdateOptions.type providerConfig in
  match toDBSharedProvider type, toDBStandardProvider type with
  | Some proxied, _ =>
      [OauthProviderConfig.Build projectConfigId
         (OauthProviderUpdateOptions.id providerConfig)
         (Some (ProxiedOauthConfig.Build proxied)) None]
  | None, Some standard =>
      [OauthProviderConfig.Build projectConfigId
         (OauthProviderUpdateOptions.id providerConfig) None
         (Some (StandardOauthConfig.Build standard
                  (OauthProviderUpdateOptions.clientId providerConfig)
                  (OauthProviderUpdateOptions.clientSecret providerConfig)
                  (OauthProviderUpdateOptions.tenantId providerConfig)))]
  | None, None => []
  end.

Definition domainRow (projectConfigId : string) (domainConfig : DomainConfigJson.t)
  : ProjectDomain.t :=
  ProjectDomain.Build projectConfigId
    (DomainConfigJson.domain domainConfig)
    (DomainConfigJson.handlerPath domainConfig).

Definition credentialUpdate (configId : string) (o : option bool) (p : Project.t)
  : Project.t :=
  match o with
  | Some b =>
      if String.eqb (ProjectConfig.id (Project.config p)) configId
      then with_credentialEnabled b p else p
  | None => p
  end.

Definition productionUpdate (projectId : string) (o : option bool) (p : Project.t)
  : Project.t :=
  match o with
  | Some b => if String.eqb (Project.id p) projectId then with_isProductionMode b p else p
  | None => p
  end.

Definition reconciledProject (projectId configId : string)
  (options : ProjectUpdateOptions.t) (p : Project.t) : Project.t :=
  productionUpdate projectId (ProjectUpdateOptions.isProductionMode options)
    (credentialUpdate configId
       (config_field ConfigUpdateOptions.credentialEnabled options) p).

(** The store that the transaction of [updateProject] leaves for a project
    [projectId] whose config has the id [configId]. *)
Definition reconciledStore (st : Store.t) (projectId configId : string)
  (options : ProjectUpdateOptions.t) : Store.t :=
  Store.Build
    (map (reconciledProject projectId configId options) (Store.projects st))
    (match config_field ConfigUpdateOptions.oauthProviders options with
     | Some oauthProviders =>
         filter (fun p => negb (String.eqb (OauthProviderConfig.projectConfigId p) configId))
                (Store.oauthProviderConfigs st)
         ++ flat_map (committedRows configId) oauthProviders
     | None => Store.oauthProviderConfigs st
     end)
    (match config_field ConfigUpdateOptions.domains options with
     | Some newDomains =>
         filter (fun d => negb (String.eqb (ProjectDomain.projectConfigId d) projectId))
                (Store.projectDomains st)
         ++ map (domainRow projectId) newDomains
     | None => Store.projectDomains st
     end)
    (Store.projectUsers st).

(** ** Project listing *)

(** [prismaClient.project.findMany({ where: { id: { in: ids } },
    include: fullProjectInclude })]: the rows whose id is one of [ids], in
    storage order. *)
Definition project_findMany (st : Store.t) (ids : list string) : list ProjectDB.t :=
  map (includeFull st)
    (filter (fun p => includes ids (Project.id p)) (Store.projects st)).

Definition listProjects (st : Store.t) (projectUser : ServerUserJson.t)
  : Outcome (list ProjectJson.t) :=
  match listProjectIds projectUser with
  | Throws msg => MkOutcome (Throws msg) st []
  | Returns managedProjectIds =>
      let projects := project_findMany st managedProjectIds in
      let assembled := map projectJsonFromDbType projects in
      MkOutcome (Returns (map fst assembled)) st (flat_map snd assembled)
  end.

(** ** The effect of a creation, in closed form *)

Definition createdProjectRow (uuid configId : string) (now : Z)
  (projectOptions : ProjectOptions.t) : Project.t :=
  Project.Build uuid
    (ProjectOptions.displayName projectOptions)
    (ProjectOptions.description projectOptions)
    now false
    (ProjectConfig.Build configId
       (ProjectOptions.allowLocalhost projectOptions)
       (ProjectOptions.credentialEnabled projectOptions)
       None).

Definition defaultProviderRows (configId : string) : list OauthProviderConfig.t :=
  [OauthProviderConfig.Build configId "github"
     (Some (ProxiedOauthConfig.Build Proxied_GITHUB)) None;
   OauthProviderConfig.Build configId "facebook"
     (Some (ProxiedOauthConfig.Build Proxied_FACEBOOK)) None;
   OauthProviderConfig.Build configId "google"
     (Some (ProxiedOauthConfig.Build Proxied_GOOGLE)) None;
   OauthProviderConfig.Build configId "microsoft"
     (Some (ProxiedOauthConfig.Build Proxied_MICROSOFT)) None].

(** The metadata that [createProject] writes back for an administrator
    whose stored metadata is [serverMetadata] and whose managed ids spread
    to [managed]. *)
Definition createdMetadata (serverMetadata : JsValue) (managed : list JsValue)
  (uuid : string) : JsValue :=
  JsObject
    (Js.set "managedProjectIds" (JsArray (managed ++ [JsString uuid]))
       (Js.spread_object
          (Js.nullish (Js.nullish serverMetadata (JsObject [])) (JsObject [])))).

(** The store before the administrator's row is rewritten. *)
Definition insertedStore (st : Store.t) (uuid configId : string) (now : Z)
  (projectOptions : ProjectOptions.t) : Store.t :=
  Store.Build
    (Store.projects st ++ [createdProjectRow uuid configId now projectOptions])
    (Store.oauthProviderConfigs st ++ defaultProviderRows configId)
    (Store.projectDomains st) (Store.projectUsers st).

(** The store that [createProject] leaves when [stored] is the
    administrator's row. *)
Definition createdStore (st : Store.t) (uuid configId : string) (now : Z)
  (projectOptions : ProjectOptions.t) (stored : ProjectUser.t)
  (managed : list JsValue) : Store.t :=
  Store.Build
    (Store.projects st ++ [createdProjectRow uuid configId now projectOptions])
    (Store.oauthProviderConfigs st ++ defaultProviderRows configId)
    (Store.projectDomains st)
    (map (fun u =>
            if String.eqb (ProjectUser.projectId u) "internal"
               && String.eqb (ProjectUser.projectUserId u)
                             (ProjectUser.projectUserId stored)
            then with_serverMetadata
                   (createdMetadata (ProjectUser.serverMetadata stored) managed uuid) u
            else u)
         (Store.projectUsers st)).


(** A view with its two flags replaced. *)
Definition withFlags (credentialEnabled isProductionMode : bool)
  (json : ProjectJson.t) : ProjectJson.t :=
  let c := ProjectJson.evaluatedConfig json in
  ProjectJson.Build (ProjectJson.id json) (ProjectJson.displayName json)
    (ProjectJson.description json) (ProjectJson.createdAtMillis json)
    (ProjectJson.userCount json) isProductionMode
    (EvaluatedConfig.Build (EvaluatedConfig.id c) (EvaluatedConfig.allowLocalhost c)
       credentialEnabled (EvaluatedConfig.domains c)
       (EvaluatedConfig.oauthProviders c) (EvaluatedConfig.emailConfig c)).

(** ** Metadata shapes *)

(** The administrator metadata shapes from which [listProjectIds] reads a
    list: [null] metadata and a [managedProjectIds] key holding [null] or
    [undefined] read as the empty list, a key holding an array of strings
    reads as that array. *)
Inductive ManagedList : JsValue -> list string -> Prop :=
| managed_null : ManagedList JsNull []
| managed_key_null : forall props,
    Js.lookup "managedProjectIds" props = Some JsNull ->
    ManagedList (JsObject props) []
| managed_key_undefined : forall props,
    Js.lookup "managedProjectIds" props = Some JsUndefined ->
    ManagedList (JsObject props) []
| managed_key_strings : forall props ids,
    Js.lookup "managedProjectIds" props = Some (JsArray (map JsString ids)) ->
    ManagedList (JsObject props) ids.

(** The metadata check in the words of the specification: the metadata is
    malformed when it is not an object, or when its [managedProjectIds]
    value is not an array of strings; an absent value is not malformed. *)
Definition specMalformed (serverMetadata : JsValue) : bool :=
  match serverMetadata with
  | JsObject props =>
      match Js.lookup "managedProjectIds" props with
      | Some value => negb (isStringArray value)
      | None => false
      end
  | _ => true
  end.

(** ** Sample data *)

Module Sample.

Definition domain_c1 : ProjectDomain.t :=
  ProjectDomain.Build "c1" "example.com" "/handler".

Definition project_p1 : Project.t :=
  Project.Build "p1" "Demo" None 1700000000000 false
    (ProjectConfig.Build "c1" true true None).

Definition admin : ProjectUser.t :=
  ProjectUser.Build "internal" "u1"
    (JsObject [("managedProjectIds", JsArray [JsString "p1"])]).

Definition store : Store.t :=
  Store.Build [project_p1]
    [OauthProviderConfig.Build "c1" "github"
       (Some (ProxiedOauthConfig.Build Proxied_GITHUB)) None]
    [domain_c1]
    [admin].

Definition adminJson : ServerUserJson.t :=
  ServerUserJson.Build "internal" "u1" (ProjectUser.serverMetadata admin).

Definition options : ProjectOptions.t :=
  ProjectOptions.Build "New" (Some "a new project") true false.

Definition decodeAccessToken (token : string) : result DecodedAccessToken.t :=
  if String.eqb token "admin-token" then Returns (DecodedAccessToken.Build "u1" "internal")
  else if String.eqb token "user-token" then Returns (DecodedAccessToken.Build "u1" "p1")
  else Throws "invalid token".

Definition getServerUser (projectId userId : string) : option ServerUserJson.t :=
  if String.eqb projectId "internal" && String.eqb userId "u1"
  then Some adminJson else None.

(** A raw record whose email service config has both sub-records and
    whose second provider row has neither. *)
Definition rawEmail : EmailServiceConfig.t :=
  EmailServiceConfig.Build "Demo Mailer" (Some ProxiedEmailServiceConfigRow)
    (Some (StandardEmailServiceConfig.Build "smtp.example.com" 587 "mailer"
             "hunter2" "noreply@example.com")).

Definition emptyProvider : OauthProviderConfig.t :=
  OauthProviderConfig.Build "c1" "orphan" None None.

Definition githubProvider : OauthProviderConfig.t :=
  OauthProviderConfig.Build "c1" "github"
    (Some (ProxiedOauthConfig.Build Proxied_GITHUB)) None.

Definition googleProvider : OauthProviderConfig.t :=
  OauthProviderConfig.Build "c1" "google" None
    (Some (StandardOauthConfig.Build Standard_GOOGLE "client" "secret" (Some ""))).

Definition rawProject : ProjectDB.t :=
  ProjectDB.Build "p1" "Demo" None 1700000000000 false
    (ProjectConfigDB.Build "c1" true true
       [githubProvider; emptyProvider; googleProvider]
       (Some rawEmail) [domain_c1])
    3.

(** An update that submits a shared entry, an entry of an unknown type and
    a standard entry. *)
Definition providersUpdate : ProjectUpdateOptions.t :=
  ProjectUpdateOptions.Build None
    (Some (ConfigUpdateOptions.Build None
             (Some [OauthProviderUpdateOptions.Build "gh" "shared-github" "" "" None;
                    OauthProviderUpdateOptions.Build "tw" "twitter" "id" "secret" None;
                    OauthProviderUpdateOptions.Build "ms" "microsoft" "client"
                      "secret" (Some "tenant")])
             None)).

(** An update that submits the empty domain list and nothing else. *)
Definition noDomainsUpdate : ProjectUpdateOptions.t :=
  ProjectUpdateOptions.Build None
    (Some (ConfigUpdateOptions.Build (Some []) None None)).

(** An administrator whose metadata is an object without the
    [managedProjectIds] key. *)
Definition bareAdminJson : ServerUserJson.t :=
  ServerUserJson.Build "internal" "u1" (JsObject [("theme", JsString "dark")]).

Definition getBareServerUser (projectId userId : string) : option ServerUserJson.t :=
  if String.eqb projectId "internal" && String.eqb userId "u1"
  then Some bareAdminJson else None.

End Sample.

(** * Properties *)

Unset Implicit Arguments.

(** ** Provider code mapper *)

Lemma includes_In (l : list string) (x : string) :
  includes l x = true <-> In x l.
Proof.
  unfold includes. rewrite existsb_exists. split.
  - intros [y [Hy Heq]]. apply String.eqb_eq in Heq. now subst.
  - intros H. exists x. split; [assumption | apply String.eqb_refl].
Qed.

Lemma includes_false (l : list string) (x : string) :
  includes l x = false <-> ~ In x l.
Proof.
  rewrite <- includes_In. destruct (includes l x); split; congruence.
Qed.

(** C4. On the shared vocabulary and on the standard vocabulary, mapping a
    provider name to the storage enum and back gives the name again, and
    mapping a member of either storage enum to its name and back gives the
    member again. *)
Theorem provider_mappers_roundtrip :
  (forall type, In type sharedProviders ->
     option_map fromDBSharedProvider (toDBSharedProvider type) = Some type) /\
  (forall type, toDBSharedProvider (fromDBSharedProvider type) = Some type) /\
  (forall type, In type standardProviders ->
     option_map fromDBStandardProvider (toDBStandardProvider type) = Some type) /\
  (forall type, toDBStandardProvider (fromDBStandardProvider type) = Some type).
Proof.
  repeat split.
  - intros type H. simpl in H.
    repeat (destruct H as [<- | H]; [reflexivity | ]). contradiction.
  - intros []; reflexivity.
  - intros type H. simpl in H.
    repeat (destruct H as [<- | H]; [reflexivity | ]). contradiction.
  - intros []; reflexivity.
Qed.

Lemma provider_mappers_roundtrip_witness :
  In "shared-google" sharedProviders /\
  option_map fromDBSharedProvider (toDBSharedProvider "shared-google")
    = Some "shared-google" /\
  In "microsoft" standardProviders /\
  option_map fromDBStandardProvider (toDBStandardProvider "microsoft")
    = Some "microsoft".
Proof.
  destruct provider_mappers_roundtrip as [Hshared [_ [Hstandard _]]].
  assert (H1 : In "shared-google" sharedProviders) by (simpl; auto).
  assert (H2 : In "microsoft" standardProviders) by (simpl; auto 6).
  exact (conj H1 (conj (Hshared _ H1) (conj H2 (Hstandard _ H2)))).
Defined.

(** ** Project access guard *)

Lemma index_key_not_managed (d : Decimal.uint) :
  String.eqb "managedProjectIds" (NilEmpty.string_of_uint d) = false.
Proof. destruct d; reflexivity. Qed.

Lemma lookup_index_keys (ns : list nat) (items : list JsValue) :
  Js.lookup "managedProjectIds" (combine (map Js.index_key ns) items) = None.
Proof.
  revert items. induction ns as [| n ns IH]; intros [| x items];
    try reflexivity.
  change (combine (map Js.index_key (n :: ns)) (x :: items))
    with ((Js.index_key n, x) :: combine (map Js.index_key ns) items).
  cbn [Js.lookup]. unfold Js.index_key at 1.
  rewrite index_key_not_managed. apply IH.
Qed.

Lemma lookup_indexed_managed (items : list JsValue) :
  Js.lookup "managedProjectIds" (Js.indexed items) = None.
Proof. apply lookup_index_keys. Qed.

Lemma isStringArray_strings (items : list JsValue) :
  forallb Js.is_string items = true ->
  items = map JsString (Js.strings (JsArray items)).
Proof.
  induction items as [| x items IH]; simpl; [reflexivity | ].
  intros H. apply andb_true_iff in H as [Hx Hrest].
  destruct x; simpl in Hx; try discriminate.
  simpl. f_equal. apply IH, Hrest.
Qed.

Lemma strings_map_JsString (ids : list string) :
  forallb Js.is_string (map JsString ids) = true /\
  Js.strings (JsArray (map JsString ids)) = ids.
Proof.
  induction ids as [| s ids [IH1 IH2]]; simpl; [split; reflexivity | ].
  split; [assumption | ]. simpl in IH2. now rewrite IH2.
Qed.

Lemma ManagedList_functional (m : JsValue) (ids ids' : list string) :
  ManagedList m ids -> ManagedList m ids' -> ids = ids'.
Proof.
  intros H H'. destruct H; inversion H'; subst; try reflexivity;
    try congruence.
  match goal with
  | [ H1 : Js.lookup _ _ = Some (JsArray (map JsString ?a)),
      H2 : Js.lookup _ _ = Some (JsArray (map JsString ?b)) |- _ ] =>
      rewrite H1 in H2; injection H2 as H2;
      rewrite <- (proj2 (strings_map_JsString a)),
              <- (proj2 (strings_map_JsString b)), H2; reflexivity
  end.
Qed.

(** [listProjectIds] returns the list of a metadata shape that has one. *)
Lemma listProjectIds_ManagedList (projectUser : ServerUserJson.t) (ids : list string) :
  ManagedList (ServerUserJson.serverMetadata projectUser) ids ->
  listProjectIds projectUser = Returns ids.
Proof.
  unfold listProjectIds. intros H.
  inversion H as [Hm | props Hk Hm | props Hk Hm | props ids' Hk Hm];
    subst; simpl; try rewrite Hk; simpl; try reflexivity.
  destruct (strings_map_JsString ids) as [Hall Hstr].
  rewrite Hall. simpl. simpl in Hstr. now rewrite Hstr.
Qed.

(** [listProjectIds] throws on every other metadata shape. *)
Lemma listProjectIds_throws (projectUser : ServerUserJson.t) :
  (forall ids, ~ ManagedList (ServerUserJson.serverMetadata projectUser) ids) ->
  exists msg, listProjectIds projectUser = Throws msg.
Proof.
  unfold listProjectIds. intros Hno.
  destruct (ServerUserJson.serverMetadata projectUser) as [| | b | n | s | items | props];
    simpl; try (eexists; reflexivity).
  - exfalso. apply (Hno []). constructor.
  - rewrite lookup_indexed_managed. simpl. eexists; reflexivity.
  - destruct (Js.lookup "managedProjectIds" props) as [v |] eqn:Hk; simpl;
      [ | eexists; reflexivity].
    destruct v as [| | b | n | s | items | props']; simpl;
      try (eexists; reflexivity).
    + exfalso. apply (Hno []). now apply managed_key_undefined.
    + exfalso. apply (Hno []). now apply managed_key_null.
    + destruct (forallb Js.is_string items) eqn:Hall; simpl;
        [ | eexists; reflexivity].
      exfalso. apply (Hno (Js.strings (JsArray items))).
      apply managed_key_strings. rewrite Hk. f_equal. f_equal.
      now apply isStringArray_strings.
Qed.

Section AccessGuardProperties.

Variable decodeAccessToken : string -> result DecodedAccessToken.t.
Variable getServerUser : string -> string -> option ServerUserJson.t.

Local Abbreviation guard := (isProjectAdmin decodeAccessToken getServerUser).

(** C1. The guard answers [false] when the token cannot be decoded, when
    the decoded project context is not "internal", when the subject has no
    administrator record in the internal context, and when the project id
    is not in the list read from the administrator's metadata; it answers
    [true] exactly when the token decodes, its context is "internal", the
    administrator record exists and the project id is in that list. *)
Theorem isProjectAdmin_checks (projectId adminAccessToken : string) :
  (forall msg, decodeAccessToken adminAccessToken = Throws msg ->
     guard projectId adminAccessToken = Returns false) /\
  (forall decoded, decodeAccessToken adminAccessToken = Returns decoded ->
     DecodedAccessToken.projectId decoded <> "internal" ->
     guard projectId adminAccessToken = Returns false) /\
  (forall decoded, decodeAccessToken adminAccessToken = Returns decoded ->
     DecodedAccessToken.projectId decoded = "internal" ->
     getServerUser "internal" (DecodedAccessToken.userId decoded) = None ->
     guard projectId adminAccessToken = Returns false) /\
  (forall decoded projectUser managed,
     decodeAccessToken adminAccessToken = Returns decoded ->
     DecodedAccessToken.projectId decoded = "internal" ->
     getServerUser "internal" (DecodedAccessToken.userId decoded) = Some projectUser ->
     listProjectIds projectUser = Returns managed ->
     ~ In projectId managed ->
     guard projectId adminAccessToken = Returns false) /\
  (guard projectId adminAccessToken = Returns true <->
   exists decoded projectUser managed,
     decodeAccessToken adminAccessToken = Returns decoded /\
     DecodedAccessToken.projectId decoded = "internal" /\
     getServerUser "internal" (DecodedAccessToken.userId decoded) = Some projectUser /\
     listProjectIds projectUser = Returns managed /\
     In projectId managed).
Proof.
  unfold isProjectAdmin. repeat split.
  - intros msg ->. reflexivity.
  - intros decoded -> Hctx. apply String.eqb_neq in Hctx. now rewrite Hctx.
  - intros decoded -> Hctx Huser. rewrite Hctx, Huser. reflexivity.
  - intros decoded projectUser managed -> Hctx Huser Hlist Hnot.
    rewrite Hctx, Huser, Hlist. simpl.
    apply includes_false in Hnot. now rewrite Hnot.
  - destruct (decodeAccessToken adminAccessToken) as [decoded | msg];
      [ | discriminate].
    destruct (String.eqb (DecodedAccessToken.projectId decoded) "internal") eqn:Hctx;
      simpl; [ | discriminate].
    destruct (getServerUser "internal" (DecodedAccessToken.userId decoded))
      as [projectUser |] eqn:Huser; [ | discriminate].
    destruct (listProjectIds projectUser) as [managed | msg] eqn:Hlist;
      simpl; [ | discriminate].
    intros H. injection H as H. apply includes_In in H.
    apply String.eqb_eq in Hctx.
    exists decoded, projectUser, managed. repeat split; assumption.
  - intros [decoded [projectUser [managed [-> [Hctx [Huser [Hlist Hin]]]]]]].
    rewrite Hctx, Huser, Hlist. simpl.
    apply includes_In in Hin. now rewrite Hin.
Qed.

(** C5, as the code has it.  Once the token is decoded in the "internal"
    context and the administrator record is found, the guard throws exactly
    when the metadata has none of the shapes of [ManagedList]: it is of a
    type other than object ([undefined], a boolean, a number, a string), or
    it is an object or array without a [managedProjectIds] key, or the key
    holds something other than [null], [undefined] or an array of strings.
    On a shape of [ManagedList] the list is read and membership of the
    project id is the answer. *)
Theorem isProjectAdmin_metadata
  (projectId adminAccessToken : string)
  (decoded : DecodedAccessToken.t) (projectUser : ServerUserJson.t) :
  decodeAccessToken adminAccessToken = Returns decoded ->
  DecodedAccessToken.projectId decoded = "internal" ->
  getServerUser "internal" (DecodedAccessToken.userId decoded) = Some projectUser ->
  ((exists msg, guard projectId adminAccessToken = Throws msg) <->
   ~ exists managed, ManagedList (ServerUserJson.serverMetadata projectUser) managed) /\
  (forall managed,
     ManagedList (ServerUserJson.serverMetadata projectUser) managed ->
     guard projectId adminAccessToken = Returns (includes managed projectId)).
Proof.
  intros Hdec Hctx Huser. unfold isProjectAdmin.
  rewrite Hdec, Hctx, Huser. simpl. split.
  - split.
    + intros [msg Hthrow] [managed Hm].
      apply listProjectIds_ManagedList in Hm. rewrite Hm in Hthrow. discriminate.
    + intros Hno.
      destruct (listProjectIds_throws projectUser) as [msg Hmsg].
      * intros ids Hm. apply Hno. now exists ids.
      * exists msg. now rewrite Hmsg.
  - intros managed Hm. apply listProjectIds_ManagedList in Hm. now rewrite Hm.
Qed.

End AccessGuardProperties.

Lemma isProjectAdmin_checks_witness :
  isProjectAdmin Sample.decodeAccessToken Sample.getServerUser "p1" "admin-token"
    = Returns true /\
  isProjectAdmin Sample.decodeAccessToken Sample.getServerUser "p1" "garbage"
    = Returns false /\
  isProjectAdmin Sample.decodeAccessToken Sample.getServerUser "p1" "user-token"
    = Returns false /\
  isProjectAdmin Sample.decodeAccessToken Sample.getServerUser "p2" "admin-token"
    = Returns false.
Proof.
  split; [ | split; [ | split]].
  - apply (proj2 (proj2 (proj2 (proj2
      (isProjectAdmin_checks Sample.decodeAccessToken Sample.getServerUser
         "p1" "admin-token"))))).
    exists (DecodedAccessToken.Build "u1" "internal"), Sample.adminJson, ["p1"].
    repeat split; try reflexivity. simpl. auto.
  - apply (proj1 (isProjectAdmin_checks Sample.decodeAccessToken
                    Sample.getServerUser "p1" "garbage") "invalid token").
    reflexivity.
  - apply (proj1 (proj2 (isProjectAdmin_checks Sample.decodeAccessToken
                           Sample.getServerUser "p1" "user-token"))
             (DecodedAccessToken.Build "u1" "p1")).
    + reflexivity.
    + discriminate.
  - apply (proj1 (proj2 (proj2 (proj2
      (isProjectAdmin_checks Sample.decodeAccessToken Sample.getServerUser
         "p2" "admin-token"))))
      (DecodedAccessToken.Build "u1" "internal") Sample.adminJson ["p1"]);
      try reflexivity.
    simpl. intros [H | []]. discriminate.
Defined.

Lemma isProjectAdmin_metadata_witness :
  isProjectAdmin Sample.decodeAccessToken Sample.getServerUser "p1" "admin-token"
    = Returns true /\
  exists msg,
    isProjectAdmin Sample.decodeAccessToken Sample.getBareServerUser "p1" "admin-token"
      = Throws msg.
Proof.
  split.
  - apply (proj2 (isProjectAdmin_metadata Sample.decodeAccessToken
                    Sample.getServerUser "p1" "admin-token"
                    (DecodedAccessToken.Build "u1" "internal")
                    Sample.adminJson
                    eq_refl eq_refl eq_refl) ["p1"]).
    apply (managed_key_strings _ ["p1"]). reflexivity.
  - apply (proj1 (isProjectAdmin_metadata Sample.decodeAccessToken
                    Sample.getBareServerUser "p1" "admin-token"
                    (DecodedAccessToken.Build "u1" "internal")
                    Sample.bareAdminJson
                    eq_refl eq_refl eq_refl)).
    intros [managed H]. inversion H; discriminate.
Defined.

(** C5, as stated, fails: an administrator whose metadata is an object
    without the [managedProjectIds] key is not malformed in the words of
    the specification, and yet the guard throws. *)
Lemma isProjectAdmin_metadata_counterexample :
  ~ ((exists msg,
        isProjectAdmin Sample.decodeAccessToken Sample.getBareServerUser
          "p1" "admin-token" = Throws msg) <->
     specMalformed (ServerUserJson.serverMetadata Sample.bareAdminJson) = true).
Proof.
  intros [H _].
  assert (Hfalse : specMalformed (ServerUserJson.serverMetadata Sample.bareAdminJson)
                   = false) by reflexivity.
  rewrite H in Hfalse; [discriminate | ].
  eexists. reflexivity.
Qed.

(** ** Project assembler *)

Lemma flat_map_fst_map {A B C : Type} (f : A -> list B * list C) (l : list A) :
  flat_map fst (map f l) = flat_map (fun x => fst (f x)) l.
Proof. induction l as [| x l IH]; simpl; [reflexivity | now rewrite IH]. Qed.

Lemma flat_map_snd_map {A B C : Type} (f : A -> list B * list C) (l : list A) :
  flat_map snd (map f l) = flat_map (fun x => snd (f x)) l.
Proof. induction l as [| x l IH]; simpl; [reflexivity | now rewrite IH]. Qed.

(** The provider views of an assembled project. *)
Lemma projectJsonFromDbType_oauthProviders (project : ProjectDB.t) :
  EvaluatedConfig.oauthProviders
    (ProjectJson.evaluatedConfig (fst (projectJsonFromDbType project)))
  = flat_map (fun p => fst (oauthProviderFromDbType (ProjectDB.id project) p))
      (ProjectConfigDB.oauthProviderConfigs (ProjectDB.config project)).
Proof. unfold projectJsonFromDbType. simpl. apply flat_map_fst_map. Qed.

(** C8. When the email service config of a raw record has both sub-records,
    the assembled email view is the standard one; with only the proxied
    sub-record it is the shared view with the sender name; with only the
    standard sub-record it is the standard view with host, port, username,
    password, sender email and sender name. *)
Theorem emailConfig_resolution (project : ProjectDB.t) (esc : EmailServiceConfig.t) :
  ProjectConfigDB.emailServiceConfig (ProjectDB.config project) = Some esc ->
  let emailConfig :=
    EvaluatedConfig.emailConfig
      (ProjectJson.evaluatedConfig (fst (projectJsonFromDbType project))) in
  let standardView (standard : StandardEmailServiceConfig.t) :=
    StandardEmailJson
      (StandardEmailServiceConfig.host standard)
      (StandardEmailServiceConfig.port standard)
      (StandardEmailServiceConfig.username standard)
      (StandardEmailServiceConfig.password standard)
      (StandardEmailServiceConfig.senderEmail standard)
      (EmailServiceConfig.senderName esc) in
  (forall proxied standard,
     EmailServiceConfig.proxiedEmailServiceConfig esc = Some proxied ->
     EmailServiceConfig.standardEmailServiceConfig esc = Some standard ->
     option_map emailType emailConfig = Some "standard" /\
     emailConfig = Some (standardView standard)) /\
  (forall proxied,
     EmailServiceConfig.proxiedEmailServiceConfig esc = Some proxied ->
     EmailServiceConfig.standardEmailServiceConfig esc = None ->
     emailConfig = Some (SharedEmailJson (EmailServiceConfig.senderName esc))) /\
  (forall standard,
     EmailServiceConfig.proxiedEmailServiceConfig esc = None ->
     EmailServiceConfig.standardEmailServiceConfig esc = Some standard ->
     emailConfig = Some (standardView standard)).
Proof.
  intros Hesc. unfold projectJsonFromDbType. cbn [fst ProjectJson.evaluatedConfig
    EvaluatedConfig.emailConfig]. rewrite Hesc. unfold emailConfigFromDbType.
  split; [ | split].
  - intros proxied standard Hp Hs. rewrite Hs. split; reflexivity.
  - intros proxied Hp Hs. rewrite Hp, Hs. reflexivity.
  - intros standard Hp Hs. rewrite Hs. reflexivity.
Qed.

(** C9. A provider row with neither sub-record contributes no view and one
    logged line; the assembled provider list is the views of the rows
    before it followed by the views of the rows after it, and every other
    row that has a sub-record contributes exactly one view. *)
Theorem assembly_skips_empty_provider
  (project : ProjectDB.t) (before after : list OauthProviderConfig.t)
  (bad : OauthProviderConfig.t) :
  ProjectConfigDB.oauthProviderConfigs (ProjectDB.config project)
    = (before ++ bad :: after)%list ->
  OauthProviderConfig.proxiedOauthConfig bad = None ->
  OauthProviderConfig.standardOauthConfig bad = None ->
  let views := fun p => fst (oauthProviderFromDbType (ProjectDB.id project) p) in
  let assembled :=
    EvaluatedConfig.oauthProviders
      (ProjectJson.evaluatedConfig (fst (projectJsonFromDbType project))) in
  views bad = [] /\
  assembled = (flat_map views before ++ flat_map views after)%list /\
  In (ignoredProviderMessage (OauthProviderConfig.id bad) (ProjectDB.id project))
     (snd (projectJsonFromDbType project)) /\
  (forall p, In p (before ++ after) ->
     OauthProviderConfig.proxiedOauthConfig p <> None \/
     OauthProviderConfig.standardOauthConfig p <> None ->
     exists view, views p = [view] /\ In view assembled).
Proof.
  intros Hrows Hp Hs views assembled.
  assert (Hbad : views bad = []).
  { unfold views, oauthProviderFromDbType. now rewrite Hp, Hs. }
  assert (Hassembled : assembled = (flat_map views before ++ flat_map views after)%list).
  { unfold assembled. rewrite projectJsonFromDbType_oauthProviders, Hrows.
    fold views. rewrite flat_map_app. simpl. now rewrite Hbad. }
  split; [exact Hbad | ]. split; [exact Hassembled | ]. split.
  - unfold projectJsonFromDbType. cbn [snd]. rewrite flat_map_snd_map, Hrows.
    apply in_flat_map. exists bad. split.
    + apply in_or_app. right. now left.
    + unfold oauthProviderFromDbType. rewrite Hp, Hs. now left.
  - intros p Hin Hsub.
    assert (Hone : exists view, views p = [view]).
    { unfold views, oauthProviderFromDbType.
      destruct (OauthProviderConfig.proxiedOauthConfig p); [eexists; reflexivity | ].
      destruct (OauthProviderConfig.standardOauthConfig p); [eexists; reflexivity | ].
      destruct Hsub as [H | H]; now elim H. }
    destruct Hone as [view Hview]. exists view. split; [exact Hview | ].
    rewrite Hassembled, <- flat_map_app. apply in_flat_map.
    exists p. split; [assumption | ]. rewrite Hview. now left.
Qed.

Lemma emailConfig_resolution_witness :
  option_map emailType
    (EvaluatedConfig.emailConfig
       (ProjectJson.evaluatedConfig (fst (projectJsonFromDbType Sample.rawProject))))
  = Some "standard".
Proof.
  apply (proj1 (proj1 (emailConfig_resolution Sample.rawProject Sample.rawEmail eq_refl)
                  ProxiedEmailServiceConfigRow
                  (StandardEmailServiceConfig.Build "smtp.example.com" 587 "mailer"
                     "hunter2" "noreply@example.com")
                  eq_refl eq_refl)).
Defined.

Lemma assembly_skips_empty_provider_witness :
  EvaluatedConfig.oauthProviders
    (ProjectJson.evaluatedConfig (fst (projectJsonFromDbType Sample.rawProject)))
  = [SharedProviderJson "github" "shared-github";
     StandardProviderJson "google" "google" "client" "secret" None].
Proof.
  apply (proj1 (proj2 (assembly_skips_empty_provider Sample.rawProject
                         [Sample.githubProvider] [Sample.googleProvider]
                         Sample.emptyProvider eq_refl eq_refl eq_refl))).
Defined.

(** ** Project reconciler *)

Lemma find_all_false {A : Type} (f : A -> bool) (l : list A) :
  (forall x, In x l -> f x = false) -> find f l = None.
Proof.
  induction l as [| x l IH]; simpl; intros H; [reflexivity | ].
  rewrite (H x (or_introl eq_refl)). apply IH. intros y Hy. apply H. now right.
Qed.

Lemma project_findUnique_missing (st : Store.t) (projectId : string) :
  (forall p, In p (Store.projects st) -> Project.id p <> projectId) ->
  project_findUnique st projectId = None.
Proof.
  intros H. unfold project_findUnique. rewrite find_all_false; [reflexivity | ].
  intros p Hp. apply String.eqb_neq. now apply H.
Qed.

Lemma updateTransaction_empty (st : Store.t) (project : ProjectDB.t) (projectId : string) :
  updateTransaction st project projectId ProjectUpdateOptions.empty = ([], []).
Proof. reflexivity. Qed.

(** C7. When no project row carries the id, [getProject] answers [null],
    and [updateProject] answers [null] for every update, leaves the store as
    it was and logs nothing. *)
Theorem missing_project_null
  (st : Store.t) (projectId : string) (options : ProjectUpdateOptions.t) :
  (forall p, In p (Store.projects st) -> Project.id p <> projectId) ->
  getProject st projectId = MkOutcome (Returns None) st [] /\
  updateProject st projectId options = MkOutcome (Returns None) st [].
Proof.
  intros H. apply project_findUnique_missing in H.
  unfold getProject, updateProject. rewrite H. split; reflexivity.
Qed.

Lemma missing_project_null_witness :
  let options :=
    ProjectUpdateOptions.Build (Some true)
      (Some (ConfigUpdateOptions.Build
               (Some [DomainConfigJson.Build "example.org" "/handler"])
               None (Some false))) in
  getProject Sample.store "p9" = MkOutcome (Returns None) Sample.store [] /\
  updateProject Sample.store "p9" options = MkOutcome (Returns None) Sample.store [].
Proof.
  intros options. apply (missing_project_null Sample.store "p9" options).
  simpl. intros p [<- | []]. discriminate.
Defined.

(** C10. [getProject] is [updateProject] applied to the empty update: it
    leaves the store as it was and answers the assembled view of the
    project row it finds, or [null] when it finds none. *)
Theorem getProject_is_empty_update (st : Store.t) (projectId : string) :
  getProject st projectId = updateProject st projectId ProjectUpdateOptions.empty /\
  outcome_store (getProject st projectId) = st /\
  outcome_result (getProject st projectId)
  = Returns (option_map (fun project => fst (projectJsonFromDbType project))
               (project_findUnique st projectId)).
Proof.
  split; [reflexivity | ].
  unfold getProject, updateProject.
  destruct (project_findUnique st projectId) as [project |] eqn:Hfind;
    [ | split; reflexivity].
  rewrite updateTransaction_empty. cbn [transaction_run option_map]. rewrite Hfind.
  destruct (projectJsonFromDbType project) as [json warned]. split; reflexivity.
Qed.

(** *** The transaction of [updateProject], stage by stage *)

Lemma transaction_run_app (ops rest : list PrismaOp) (st : Store.t) :
  transaction_run (ops ++ rest) st
  = do st' <- transaction_run ops st; transaction_run rest st'.
Proof.
  revert st. induction ops as [| op ops IH]; intros st; simpl; [reflexivity | ].
  destruct (exec op st) as [st' | msg]; simpl; [apply IH | reflexivity].
Qed.

Lemma shared_type_mapped (type : string) :
  includes sharedProviders type = true ->
  exists proxied, toDBSharedProvider type = Some proxied.
Proof.
  unfold includes, sharedProviders, toDBSharedProvider. simpl.
  destruct (String.eqb type "shared-github"); [eexists; reflexivity | ].
  destruct (String.eqb type "shared-google"); [eexists; reflexivity | ].
  destruct (String.eqb type "shared-facebook"); [eexists; reflexivity | ].
  destruct (String.eqb type "shared-microsoft"); [eexists; reflexivity | ].
  discriminate.
Qed.

Lemma other_type_not_shared (type : string) :
  includes sharedProviders type = false -> toDBSharedProvider type = None.
Proof.
  unfold includes, sharedProviders, toDBSharedProvider. simpl.
  destruct (String.eqb type "shared-github"); [discriminate | ].
  destruct (String.eqb type "shared-google"); [discriminate | ].
  destruct (String.eqb type "shared-facebook"); [discriminate | ].
  destruct (String.eqb type "shared-microsoft"); [discriminate | reflexivity].
Qed.

Lemma standard_type_mapped (type : string) :
  includes standardProviders type = true ->
  exists standard, toDBStandardProvider type = Some standard.
Proof.
  unfold includes, standardProviders, toDBStandardProvider. simpl.
  destruct (String.eqb type "github"); [eexists; reflexivity | ].
  destruct (String.eqb type "facebook"); [eexists; reflexivity | ].
  destruct (String.eqb type "google"); [eexists; reflexivity | ].
  destruct (String.eqb type "microsoft"); [eexists; reflexivity | ].
  discriminate.
Qed.

Lemma other_type_not_standard (type : string) :
  includes standardProviders type = false -> toDBStandardProvider type = None.
Proof.
  unfold includes, standardProviders, toDBStandardProvider. simpl.
  destruct (String.eqb type "github"); [discriminate | ].
  destruct (String.eqb type "facebook"); [discriminate | ].
  destruct (String.eqb type "google"); [discriminate | ].
  destruct (String.eqb type "microsoft"); [discriminate | reflexivity].
Qed.

(** What one submitted provider entry does to the store. *)
Lemma oauthProviderOps_run (configId : string) (e : OauthProviderUpdateOptions.t)
  (st : Store.t) :
  transaction_run (fst (oauthProviderOps configId e)) st
  = Returns (set_oauthProviderConfigs st
               (Store.oauthProviderConfigs st ++ committedRows configId e)).
Proof.
  unfold oauthProviderOps, committedRows.
  destruct (includes sharedProviders (OauthProviderUpdateOptions.type e)) eqn:Hshared.
  - destruct (shared_type_mapped _ Hshared) as [proxied ->]. reflexivity.
  - rewrite (other_type_not_shared _ Hshared).
    destruct (includes standardProviders (OauthProviderUpdateOptions.type e)) eqn:Hstd.
    + destruct (standard_type_mapped _ Hstd) as [standard ->]. reflexivity.
    + rewrite (other_type_not_standard _ Hstd). simpl.
      rewrite app_nil_r. now destruct st.
Qed.

Lemma oauthProviderOps_run_all (configId : string)
  (providers : list OauthProviderUpdateOptions.t) (st : Store.t) :
  transaction_run (flat_map fst (map (oauthProviderOps configId) providers)) st
  = Returns (set_oauthProviderConfigs st
               (Store.oauthProviderConfigs st ++ flat_map (committedRows configId) providers)).
Proof.
  revert st. induction providers as [| e providers IH]; intros st.
  - simpl. rewrite app_nil_r. now destruct st.
  - cbn [map flat_map]. rewrite transaction_run_app, oauthProviderOps_run.
    cbn [bind]. rewrite IH. unfold set_oauthProviderConfigs. cbn.
    now rewrite app_assoc.
Qed.

Lemma domain_creates_run (projectId : string) (newDomains : list DomainConfigJson.t)
  (st : Store.t) :
  transaction_run
    (map (fun domainConfig =>
            ProjectDomain_create
              (ProjectDomain.Build projectId
                 (DomainConfigJson.domain domainConfig)
                 (DomainConfigJson.handlerPath domainConfig)))
         newDomains) st
  = Returns (set_projectDomains st
               (Store.projectDomains st ++ map (domainRow projectId) newDomains)).
Proof.
  revert st. induction newDomains as [| d newDomains IH]; intros st.
  - simpl. rewrite app_nil_r. now destruct st.
  - cbn [map transaction_run exec bind]. rewrite IH.
    unfold set_projectDomains. cbn. now rewrite <- app_assoc.
Qed.

Lemma update_where_hit {A : Type} (sel : A -> bool) (f : A -> A) (rows : list A) (x : A) :
  In x rows -> sel x = true ->
  update_where sel f rows = Returns (map (fun r => if sel r then f r else r) rows).
Proof.
  intros Hin Hsel. unfold update_where.
  replace (existsb sel rows) with true; [reflexivity | ].
  symmetry. apply existsb_exists. now exists x.
Qed.

Lemma credentialUpdate_keys (configId : string) (o : option bool) (p : Project.t) :
  Project.id (credentialUpdate configId o p) = Project.id p /\
  ProjectConfig.id (Project.config (credentialUpdate configId o p))
  = ProjectConfig.id (Project.config p).
Proof.
  unfold credentialUpdate. destruct o as [b |]; [ | split; reflexivity].
  destruct (String.eqb _ configId); split; reflexivity.
Qed.

Lemma productionUpdate_keys (projectId : string) (o : option bool) (p : Project.t) :
  Project.id (productionUpdate projectId o p) = Project.id p /\
  ProjectConfig.id (Project.config (productionUpdate projectId o p))
  = ProjectConfig.id (Project.config p).
Proof.
  unfold productionUpdate. destruct o as [b |]; [ | split; reflexivity].
  destruct (String.eqb _ projectId); split; reflexivity.
Qed.

Lemma reconciledProject_keys (projectId configId : string)
  (options : ProjectUpdateOptions.t) (p : Project.t) :
  Project.id (reconciledProject projectId configId options p) = Project.id p /\
  ProjectConfig.id (Project.config (reconciledProject projectId configId options p))
  = ProjectConfig.id (Project.config p).
Proof.
  unfold reconciledProject.
  destruct (productionUpdate_keys projectId
              (ProjectUpdateOptions.isProductionMode options)
              (credentialUpdate configId
                 (config_field ConfigUpdateOptions.credentialEnabled options) p))
    as [-> ->].
  apply credentialUpdate_keys.
Qed.

Section Stages.

Variables (projects : list Project.t) (providerRows : list OauthProviderConfig.t)
  (domainRows : list ProjectDomain.t) (users : list ProjectUser.t).
Variables (projectId configId : string) (rest : list PrismaOp).

Lemma stage_domains (o : option (list DomainConfigJson.t)) :
  transaction_run
    (match o with
     | Some newDomains => domainOps projectId newDomains
     | None => []
     end ++ rest)
    (Store.Build projects providerRows domainRows users)
  = transaction_run rest
      (Store.Build projects providerRows
         (match o with
          | Some newDomains =>
              filter (fun d => negb (String.eqb (ProjectDomain.projectConfigId d) projectId))
                     domainRows
              ++ map (domainRow projectId) newDomains
          | None => domainRows
          end)
         users).
Proof.
  destruct o as [newDomains |]; [ | reflexivity].
  unfold domainOps. cbn [app transaction_run exec bind].
  now rewrite transaction_run_app, domain_creates_run.
Qed.

Lemma stage_providers (o : option (list OauthProviderUpdateOptions.t)) :
  transaction_run
    (fst match o with
         | Some oauthProviders =>
             (OauthProviderConfig_deleteMany configId
                :: flat_map fst (map (oauthProviderOps configId) oauthProviders),
              flat_map snd (map (oauthProviderOps configId) oauthProviders))
         | None => ([], [])
         end ++ rest)
    (Store.Build projects providerRows domainRows users)
  = transaction_run rest
      (Store.Build projects
         (match o with
          | Some oauthProviders =>
              filter (fun p => negb (String.eqb (OauthProviderConfig.projectConfigId p)
                                                 configId))
                     providerRows
              ++ flat_map (committedRows configId) oauthProviders
          | None => providerRows
          end)
         domainRows users).
Proof.
  destruct o as [oauthProviders |]; [ | reflexivity].
  cbn [fst app transaction_run exec bind].
  now rewrite transaction_run_app, oauthProviderOps_run_all.
Qed.

Lemma stage_credential (o : option bool) (row : Project.t) :
  In row projects -> ProjectConfig.id (Project.config row) = configId ->
  transaction_run
    (match o with
     | Some b => [ProjectConfig_update_credentialEnabled configId b]
     | None => []
     end ++ rest)
    (Store.Build projects providerRows domainRows users)
  = transaction_run rest
      (Store.Build (map (credentialUpdate configId o) projects)
         providerRows domainRows users).
Proof.
  intros Hin Hcfg. destruct o as [b |].
  - cbn [app transaction_run exec Store.projects].
    rewrite (update_where_hit _ _ _ row Hin); [reflexivity | ].
    rewrite Hcfg. apply String.eqb_refl.
  - cbn [app]. unfold credentialUpdate. now rewrite map_id.
Qed.

Lemma stage_production (o : option bool) (row : Project.t) :
  In row projects -> Project.id row = projectId ->
  transaction_run
    match o with
    | Some b => [Project_update_isProductionMode projectId b]
    | None => []
    end
    (Store.Build projects providerRows domainRows users)
  = Returns (Store.Build (map (productionUpdate projectId o) projects)
               providerRows domainRows users).
Proof.
  intros Hin Hid. destruct o as [b |].
  - cbn [app transaction_run exec Store.projects].
    rewrite (update_where_hit _ _ _ row Hin); [reflexivity | ].
    rewrite Hid. apply String.eqb_refl.
  - cbn [transaction_run]. unfold productionUpdate. now rewrite map_id.
Qed.

End Stages.

(** The transaction that [updateProject] builds for the row it found runs
    to the end and leaves the reconciled store. *)
Lemma updateTransaction_run (st : Store.t) (row : Project.t) (projectId : string)
  (options : ProjectUpdateOptions.t) :
  In row (Store.projects st) -> Project.id row = projectId ->
  transaction_run
    (fst (updateTransaction st (includeFull st row) projectId options)) st
  = Returns (reconciledStore st projectId (ProjectConfig.id (Project.config row)) options).
Proof.
  intros Hin Hid. unfold updateTransaction. cbv zeta. cbn [fst].
  change (ProjectConfigDB.id (ProjectDB.config (includeFull st row)))
    with (ProjectConfig.id (Project.config row)).
  destruct st as [projects providerRows domainRows users].
  cbn [Store.projects] in Hin.
  rewrite stage_domains, stage_providers.
  rewrite (stage_credential _ _ _ _ _ _ _ row Hin eq_refl).
  rewrite (stage_production _ _ _ _ _ _
             (credentialUpdate (ProjectConfig.id (Project.config row))
                (config_field ConfigUpdateOptions.credentialEnabled options) row)).
  - unfold reconciledStore, reconciledProject. cbn [Store.projects
      Store.oauthProviderConfigs Store.projectDomains Store.projectUsers].
    now rewrite map_map.
  - now apply in_map.
  - rewrite <- Hid. apply credentialUpdate_keys.
Qed.

Lemma find_map_keys (g : Project.t -> Project.t) (projectId : string)
  (rows : list Project.t) :
  (forall p, Project.id (g p) = Project.id p) ->
  find (fun p => String.eqb (Project.id p) projectId) (map g rows)
  = option_map g (find (fun p => String.eqb (Project.id p) projectId) rows).
Proof.
  intros Hg. induction rows as [| p rows IH]; simpl; [reflexivity | ].
  rewrite Hg. destruct (String.eqb (Project.id p) projectId); [reflexivity | exact IH].
Qed.

Lemma project_findUnique_reconciled (st : Store.t) (projectId configId : string)
  (options : ProjectUpdateOptions.t) (row : Project.t) :
  find (fun p => String.eqb (Project.id p) projectId) (Store.projects st) = Some row ->
  project_findUnique (reconciledStore st projectId configId options) projectId
  = Some (includeFull (reconciledStore st projectId configId options)
            (reconciledProject projectId configId options row)).
Proof.
  intros Hfind. unfold project_findUnique.
  change (Store.projects (reconciledStore st projectId configId options))
    with (map (reconciledProject projectId configId options) (Store.projects st)).
  rewrite find_map_keys by (intros p; apply reconciledProject_keys).
  now rewrite Hfind.
Qed.

(** [updateProject] on a project that exists, in closed form. *)
Lemma updateProject_existing (st : Store.t) (projectId : string)
  (options : ProjectUpdateOptions.t) (row : Project.t) :
  find (fun p => String.eqb (Project.id p) projectId) (Store.projects st) = Some row ->
  let configId := ProjectConfig.id (Project.config row) in
  let st' := reconciledStore st projectId configId options in
  let updated := includeFull st' (reconciledProject projectId configId options row) in
  updateProject st projectId options
  = MkOutcome (Returns (Some (fst (projectJsonFromDbType updated)))) st'
      (snd (updateTransaction st (includeFull st row) projectId options)
       ++ snd (projectJsonFromDbType updated)).
Proof.
  intros Hfind configId st' updated.
  destruct (find_some _ _ Hfind) as [Hin Hid]. apply String.eqb_eq in Hid.
  assert (Hproject : project_findUnique st projectId = Some (includeFull st row)).
  { unfold project_findUnique. now rewrite Hfind. }
  unfold updateProject. rewrite Hproject.
  rewrite (surjective_pairing (updateTransaction st (includeFull st row) projectId options)).
  rewrite (updateTransaction_run st row projectId options Hin Hid).
  rewrite (project_findUnique_reconciled st projectId _ options row Hfind).
  fold configId. fold st'. fold updated. now destruct (projectJsonFromDbType updated).
Qed.

Lemma project_findUnique_row (st : Store.t) (projectId : string) (project : ProjectDB.t) :
  project_findUnique st projectId = Some project ->
  exists row,
    find (fun p => String.eqb (Project.id p) projectId) (Store.projects st) = Some row /\
    project = includeFull st row.
Proof.
  unfold project_findUnique.
  destruct (find _ (Store.projects st)) as [row |]; [ | discriminate].
  intros H. injection H as <-. now exists row.
Qed.

Lemma filter_negb_filter {A : Type} (f : A -> bool) (l : list A) :
  filter f (filter (fun x => negb (f x)) l) = [].
Proof.
  induction l as [| x l IH]; simpl; [reflexivity | ].
  destruct (f x) eqn:Hx; simpl; [exact IH | now rewrite Hx].
Qed.

Lemma filter_all {A : Type} (f : A -> bool) (l : list A) :
  (forall x, In x l -> f x = true) -> filter f l = l.
Proof.
  induction l as [| x l IH]; simpl; intros H; [reflexivity | ].
  rewrite (H x (or_introl eq_refl)). f_equal. apply IH. intros y Hy. apply H. now right.
Qed.

Lemma committedRows_config (configId : string) (e : OauthProviderUpdateOptions.t)
  (r : OauthProviderConfig.t) :
  In r (committedRows configId e) -> OauthProviderConfig.projectConfigId r = configId.
Proof.
  unfold committedRows.
  destruct (toDBSharedProvider _); [intros [<- | []]; reflexivity | ].
  destruct (toDBStandardProvider _); [intros [<- | []]; reflexivity | intros []].
Qed.



(** *** The [domains] group *)

Lemma filter_other_key (configId projectId : string) (rows : list ProjectDomain.t) :
  configId <> projectId ->
  filter (fun d => String.eqb (ProjectDomain.projectConfigId d) configId)
    (filter (fun d => negb (String.eqb (ProjectDomain.projectConfigId d) projectId)) rows)
  = filter (fun d => String.eqb (ProjectDomain.projectConfigId d) configId) rows.
Proof.
  intros Hne. induction rows as [| d rows IH]; simpl; [reflexivity | ].
  destruct (String.eqb (ProjectDomain.projectConfigId d) projectId) eqn:Hp; simpl.
  - apply String.eqb_eq in Hp.
    replace (String.eqb (ProjectDomain.projectConfigId d) configId) with false; [exact IH | ].
    symmetry. apply String.eqb_neq. congruence.
  - now rewrite IH.
Qed.

Lemma filter_domainRows_other (configId projectId : string)
  (newDomains : list DomainConfigJson.t) :
  configId <> projectId ->
  filter (fun d => String.eqb (ProjectDomain.projectConfigId d) configId)
    (map (domainRow projectId) newDomains) = [].
Proof.
  intros Hne. induction newDomains as [| d newDomains IH]; simpl; [reflexivity | ].
  replace (String.eqb projectId configId) with false; [exact IH | ].
  symmetry. apply String.eqb_neq. congruence.
Qed.

(** The delete and the creates of the [domains] group are keyed by the
    project id: when the config of the project has another id, the domain
    rows of that config are after the update what they were before it. *)
Lemma updateProject_domains_other_key (st : Store.t) (projectId : string)
  (options : ProjectUpdateOptions.t) (row : Project.t)
  (newDomains : list DomainConfigJson.t) :
  find (fun p => String.eqb (Project.id p) projectId) (Store.projects st) = Some row ->
  ProjectConfig.id (Project.config row) <> projectId ->
  config_field ConfigUpdateOptions.domains options = Some newDomains ->
  projectDomain_findMany (outcome_store (updateProject st projectId options))
    (ProjectConfig.id (Project.config row))
  = projectDomain_findMany st (ProjectConfig.id (Project.config row)).
Proof.
  intros Hfind Hne Hdomains.
  rewrite (updateProject_existing st projectId options row Hfind).
  cbn [outcome_store]. unfold projectDomain_findMany, reconciledStore.
  cbn [Store.projectDomains]. rewrite Hdomains, filter_app.
  rewrite (filter_other_key _ _ _ Hne), (filter_domainRows_other _ _ _ Hne).
  apply app_nil_r.
Qed.

(** When the config of the project carries the project id as its own id,
    the domain rows of the config are replaced by the submitted set. *)
Lemma updateProject_domains_same_key (st : Store.t) (projectId : string)
  (options : ProjectUpdateOptions.t) (row : Project.t)
  (newDomains : list DomainConfigJson.t) :
  find (fun p => String.eqb (Project.id p) projectId) (Store.projects st) = Some row ->
  ProjectConfig.id (Project.config row) = projectId ->
  config_field ConfigUpdateOptions.domains options = Some newDomains ->
  projectDomain_findMany (outcome_store (updateProject st projectId options)) projectId
  = map (domainRow projectId) newDomains.
Proof.
  intros Hfind Heq Hdomains.
  rewrite (updateProject_existing st projectId options row Hfind).
  cbn [outcome_store]. unfold projectDomain_findMany, reconciledStore.
  cbn [Store.projectDomains]. rewrite Hdomains, filter_app, filter_negb_filter.
  cbn [app]. apply filter_all. intros d Hd. apply in_map_iff in Hd as [x [<- _]].
  apply String.eqb_refl.
Qed.

(** An update that submits only [domains] leaves the project rows and the
    provider rows as they were. *)
Lemma updateProject_domains_frame (st : Store.t) (projectId : string)
  (row : Project.t) (newDomains : list DomainConfigJson.t) :
  find (fun p => String.eqb (Project.id p) projectId) (Store.projects st) = Some row ->
  let out :=
    updateProject st projectId
      (ProjectUpdateOptions.Build None
         (Some (ConfigUpdateOptions.Build (Some newDomains) None None))) in
  Store.projects (outcome_store out) = Store.projects st /\
  Store.oauthProviderConfigs (outcome_store out) = Store.oauthProviderConfigs st.
Proof.
  intros Hfind out. unfold out.
  rewrite (updateProject_existing st projectId _ row Hfind).
  cbn [outcome_store]. unfold reconciledStore, reconciledProject. cbn. split.
  - apply map_id.
  - reflexivity.
Qed.

(** C2, at a store where the config "c1" of the project "p1" owns one
    domain row: after an update of "p1" that submits only the empty domain
    list, the row is still there and the returned view still lists its
    domain.  The delete is keyed by the project id "p1", not by the config
    id "c1". *)
Theorem updateProject_empty_domains_keeps_rows :
  let out := updateProject Sample.store "p1" Sample.noDomainsUpdate in
  projectDomain_findMany Sample.store "c1" = [Sample.domain_c1] /\
  projectDomain_findMany (outcome_store out) "c1" = [Sample.domain_c1] /\
  outcome_result out
  = Returns (Some (fst (projectJsonFromDbType
                          (includeFull Sample.store Sample.project_p1)))) /\
  option_map
    (fun json => EvaluatedConfig.domains (ProjectJson.evaluatedConfig json))
    (match outcome_result out with Returns json => json | Throws _ => None end)
  = Some [DomainConfigJson.Build "example.com" "/handler"].
Proof.
  intros out. split; [reflexivity | ]. split.
  - apply (updateProject_domains_other_key Sample.store "p1" Sample.noDomainsUpdate
             Sample.project_p1 []); [reflexivity | discriminate | reflexivity].
  - split; reflexivity.
Qed.

(** ** Project creator *)

Lemma proxiedProviderRows_default (configId : string) :
  proxiedProviderRows configId ["github"; "facebook"; "google"; "microsoft"]
  = Returns
      [OauthProviderConfig.Build configId "github"
         (Some (ProxiedOauthConfig.Build Proxied_GITHUB)) None;
       OauthProviderConfig.Build configId "facebook"
         (Some (ProxiedOauthConfig.Build Proxied_FACEBOOK)) None;
       OauthProviderConfig.Build configId "google"
         (Some (ProxiedOauthConfig.Build Proxied_GOOGLE)) None;
       OauthProviderConfig.Build configId "microsoft"
         (Some (ProxiedOauthConfig.Build Proxied_MICROSOFT)) None].
Proof. reflexivity. Qed.

Lemma filter_none {A : Type} (f : A -> bool) (l : list A) :
  (forall x, In x l -> f x = false) -> filter f l = [].
Proof.
  induction l as [| x l IH]; simpl; intros H; [reflexivity | ].
  rewrite (H x (or_introl eq_refl)). apply IH. intros y Hy. apply H. now right.
Qed.

(** C3. A caller of the "internal" context whose administrator row is in
    storage with an iterable list of managed project ids, and a config id
    that no provider row uses yet: for every display name, description,
    [allowLocalhost] and [credentialEnabled], [createProject] returns a view
    whose [isProductionMode] is [false] and whose OAuth providers are the
    four shared entries github, facebook, google and microsoft. *)
Theorem createProject_defaults
  (st : Store.t) (uuid configId : string) (now : Z)
  (projectUser : ServerUserJson.t) (projectOptions : ProjectOptions.t)
  (stored : ProjectUser.t) (managed : list JsValue) :
  ServerUserJson.projectId projectUser = "internal" ->
  projectUser_findUniqueOrThrow st "internal" (ServerUserJson.id projectUser)
    = Returns stored ->
  Js.spread_array
    (managedProjectIdsTx (Js.nullish (ProjectUser.serverMetadata stored) (JsObject [])))
    = Returns managed ->
  (forall p, In p (Store.oauthProviderConfigs st) ->
     OauthProviderConfig.projectConfigId p <> configId) ->
  exists json st',
    createProject st uuid configId now projectUser projectOptions
      = MkOutcome (Returns json) st' [] /\
    ProjectJson.isProductionMode json = false /\
    EvaluatedConfig.oauthProviders (ProjectJson.evaluatedConfig json)
    = [SharedProviderJson "github" "shared-github";
       SharedProviderJson "facebook" "shared-facebook";
       SharedProviderJson "google" "shared-google";
       SharedProviderJson "microsoft" "shared-microsoft"].
Proof.
  intros Hinternal Hstored Hmanaged Hfresh.
  unfold createProject. rewrite Hinternal. cbn [String.eqb negb].
  change (negb ("internal" =? "internal")) with false. cbv iota.
  unfold createProjectTx. rewrite proxiedProviderRows_default. cbn [bind].
  match goal with
  | [ |- context [projectUser_findUniqueOrThrow ?s _ _] ] =>
      change (projectUser_findUniqueOrThrow s "internal" (ServerUserJson.id projectUser))
        with (projectUser_findUniqueOrThrow st "internal" (ServerUserJson.id projectUser))
  end.
  rewrite Hstored. cbn [bind]. rewrite Hmanaged. cbn [bind Store.projectUsers].
  assert (Hhit : In stored (Store.projectUsers st) /\
                 String.eqb (ProjectUser.projectId stored) "internal"
                 && String.eqb (ProjectUser.projectUserId stored)
                               (ProjectUser.projectUserId stored) = true).
  { unfold projectUser_findUniqueOrThrow in Hstored.
    destruct (find _ (Store.projectUsers st)) as [u |] eqn:Hfind; [ | discriminate].
    injection Hstored as ->. destruct (find_some _ _ Hfind) as [Hin Hsel].
    split; [exact Hin | ]. apply andb_true_iff in Hsel as [Hp _].
    now rewrite Hp, String.eqb_refl. }
  destruct Hhit as [Hin Hsel].
  rewrite (update_where_hit _ _ _ stored Hin Hsel). cbn [bind].
  match goal with
  | [ |- context [projectJsonFromDbType ?project] ] =>
      rewrite (surjective_pairing (projectJsonFromDbType project));
      set (assembled := projectJsonFromDbType project)
  end.
  assert (Hproviders :
    EvaluatedConfig.oauthProviders (ProjectJson.evaluatedConfig (fst assembled))
    = [SharedProviderJson "github" "shared-github";
       SharedProviderJson "facebook" "shared-facebook";
       SharedProviderJson "google" "shared-google";
       SharedProviderJson "microsoft" "shared-microsoft"]).
  { unfold assembled. rewrite projectJsonFromDbType_oauthProviders.
    cbn [includeFull ProjectDB.config ProjectConfigDB.oauthProviderConfigs
         Store.oauthProviderConfigs Project.config ProjectConfig.id ProjectDB.id].
    rewrite filter_app, filter_none.
    - cbn [app filter OauthProviderConfig.projectConfigId].
      rewrite String.eqb_refl. reflexivity.
    - intros p Hp. apply String.eqb_neq. now apply Hfresh. }
  assert (Hlog : snd assembled = []).
  { unfold assembled, projectJsonFromDbType. cbn [snd]. rewrite flat_map_snd_map.
    cbn [includeFull ProjectDB.config ProjectConfigDB.oauthProviderConfigs
         Store.oauthProviderConfigs Project.config ProjectConfig.id ProjectDB.id].
    rewrite filter_app, filter_none.
    - cbn [app filter OauthProviderConfig.projectConfigId].
      rewrite String.eqb_refl. reflexivity.
    - intros p Hp. apply String.eqb_neq. now apply Hfresh. }
  rewrite Hlog. eexists. eexists. split; [reflexivity | ].
  split; [reflexivity | exact Hproviders].
Qed.

Lemma createProject_defaults_witness :
  exists json st',
    createProject Sample.store "p2" "c2" 1700000000500 Sample.adminJson Sample.options
      = MkOutcome (Returns json) st' [] /\
    ProjectJson.isProductionMode json = false /\
    EvaluatedConfig.oauthProviders (ProjectJson.evaluatedConfig json)
    = [SharedProviderJson "github" "shared-github";
       SharedProviderJson "facebook" "shared-facebook";
       SharedProviderJson "google" "shared-google";
       SharedProviderJson "microsoft" "shared-microsoft"].
Proof.
  apply (createProject_defaults Sample.store "p2" "c2" 1700000000500
           Sample.adminJson Sample.options Sample.admin [JsString "p1"]);
    try reflexivity.
  simpl. intros p [<- | []]. discriminate.
Defined.

(** * Further properties *)

(** ** Provider code mapper *)

Lemma toDBSharedProvider_name (type : string) (proxied : ProxiedOauthProviderType) :
  toDBSharedProvider type = Some proxied -> fromDBSharedProvider proxied = type.
Proof.
  unfold toDBSharedProvider.
  destruct (String.eqb type "shared-github") eqn:H1;
    [intros H; injection H as <-; apply String.eqb_eq in H1; now subst | ].
  destruct (String.eqb type "shared-google") eqn:H2;
    [intros H; injection H as <-; apply String.eqb_eq in H2; now subst | ].
  destruct (String.eqb type "shared-facebook") eqn:H3;
    [intros H; injection H as <-; apply String.eqb_eq in H3; now subst | ].
  destruct (String.eqb type "shared-microsoft") eqn:H4;
    [intros H; injection H as <-; apply String.eqb_eq in H4; now subst | ].
  discriminate.
Qed.

Lemma toDBStandardProvider_name (type : string) (standard : StandardOauthProviderType) :
  toDBStandardProvider type = Some standard -> fromDBStandardProvider standard = type.
Proof.
  unfold toDBStandardProvider.
  destruct (String.eqb type "github") eqn:H1;
    [intros H; injection H as <-; apply String.eqb_eq in H1; now subst | ].
  destruct (String.eqb type "facebook") eqn:H2;
    [intros H; injection H as <-; apply String.eqb_eq in H2; now subst | ].
  destruct (String.eqb type "google") eqn:H3;
    [intros H; injection H as <-; apply String.eqb_eq in H3; now subst | ].
  destruct (String.eqb type "microsoft") eqn:H4;
    [intros H; injection H as <-; apply String.eqb_eq in H4; now subst | ].
  discriminate.
Qed.

(** X1. The external name of a provider type tells the family and the
    member: the names of two different members of one storage enum differ,
    no shared name is a standard name, and a name that one mapper accepts
    is rejected by the other. *)
Theorem provider_names_unambiguous :
  (forall a b, fromDBSharedProvider a = fromDBSharedProvider b -> a = b) /\
  (forall a b, fromDBStandardProvider a = fromDBStandardProvider b -> a = b) /\
  (forall a b, fromDBSharedProvider a <> fromDBStandardProvider b) /\
  (forall type proxied, toDBSharedProvider type = Some proxied ->
     toDBStandardProvider type = None) /\
  (forall type standard, toDBStandardProvider type = Some standard ->
     toDBSharedProvider type = None).
Proof.
  split; [ | split; [ | split; [ | split]]].
  - intros [] []; simpl; intros H; try reflexivity; discriminate.
  - intros [] []; simpl; intros H; try reflexivity; discriminate.
  - intros [] []; discriminate.
  - intros type proxied H. apply toDBSharedProvider_name in H. subst type.
    now destruct proxied.
  - intros type standard H. apply toDBStandardProvider_name in H. subst type.
    now destruct standard.
Qed.

Lemma provider_names_unambiguous_witness :
  Proxied_GOOGLE = Proxied_GOOGLE /\ toDBStandardProvider "shared-github" = None.
Proof.
  destruct provider_names_unambiguous as [Hinj [_ [_ [Hshared _]]]].
  exact (conj (Hinj Proxied_GOOGLE Proxied_GOOGLE eq_refl)
              (Hshared "shared-github" Proxied_GITHUB eq_refl)).
Defined.

(** ** Project reconciler *)

Lemma project_findUnique_found (st : Store.t) (projectId : string) (row : Project.t) :
  find (fun p => String.eqb (Project.id p) projectId) (Store.projects st) = Some row ->
  project_findUnique st projectId = Some (includeFull st row).
Proof. intros H. unfold project_findUnique. now rewrite H. Qed.

Lemma project_findUnique_none (st : Store.t) (projectId : string) :
  find (fun p => String.eqb (Project.id p) projectId) (Store.projects st) = None ->
  project_findUnique st projectId = None.
Proof. intros H. unfold project_findUnique. now rewrite H. Qed.

Lemma updateProject_none (st : Store.t) (projectId : string)
  (options : ProjectUpdateOptions.t) :
  find (fun p => String.eqb (Project.id p) projectId) (Store.projects st) = None ->
  updateProject st projectId options = MkOutcome (Returns None) st [].
Proof.
  intros H. unfold updateProject. now rewrite (project_findUnique_none _ _ H).
Qed.

(** [getProject] on a project that exists, in closed form. *)
Lemma getProject_existing (st : Store.t) (projectId : string) (row : Project.t) :
  find (fun p => String.eqb (Project.id p) projectId) (Store.projects st) = Some row ->
  getProject st projectId
  = MkOutcome (Returns (Some (fst (projectJsonFromDbType (includeFull st row))))) st
      (snd (projectJsonFromDbType (includeFull st row))).
Proof.
  intros Hfind. unfold getProject, updateProject.
  rewrite (project_findUnique_found _ _ _ Hfind), updateTransaction_empty.
  cbn [transaction_run]. rewrite (project_findUnique_found _ _ _ Hfind).
  now destruct (projectJsonFromDbType (includeFull st row)).
Qed.

Lemma find_reconciled (st : Store.t) (projectId configId : string)
  (options : ProjectUpdateOptions.t) (row : Project.t) :
  find (fun p => String.eqb (Project.id p) projectId) (Store.projects st) = Some row ->
  find (fun p => String.eqb (Project.id p) projectId)
       (Store.projects (reconciledStore st projectId configId options))
  = Some (reconciledProject projectId configId options row).
Proof.
  intros Hfind.
  change (Store.projects (reconciledStore st projectId configId options))
    with (map (reconciledProject projectId configId options) (Store.projects st)).
  rewrite find_map_keys by (intros p; apply reconciledProject_keys).
  now rewrite Hfind.
Qed.




Lemma filter_filter_same {A : Type} (f : A -> bool) (l : list A) :
  filter f (filter f l) = filter f l.
Proof.
  induction l as [| x l IH]; simpl; [reflexivity | ].
  destruct (f x) eqn:Hx; simpl; [now rewrite Hx, IH | exact IH].
Qed.

Lemma reconciledProject_idem (projectId configId : string)
  (options : ProjectUpdateOptions.t) (p : Project.t) :
  reconciledProject projectId configId options
    (reconciledProject projectId configId options p)
  = reconciledProject projectId configId options p.
Proof.
  unfold reconciledProject, productionUpdate, credentialUpdate,
    with_isProductionMode, with_credentialEnabled.
  destruct (ProjectUpdateOptions.isProductionMode options) as [production |];
  destruct (config_field ConfigUpdateOptions.credentialEnabled options) as [credential |];
  destruct p as [id name description created mode [cid localhost enabled email]];
  simpl;
  destruct (String.eqb cid configId) eqn:Hc; simpl;
  destruct (String.eqb id projectId) eqn:Hp; simpl;
  rewrite ?Hc, ?Hp; simpl; rewrite ?Hc, ?Hp; reflexivity.
Qed.

Lemma filter_negb_committedRows (configId : string)
  (providers : list OauthProviderUpdateOptions.t) :
  filter (fun p => negb (String.eqb (OauthProviderConfig.projectConfigId p) configId))
         (flat_map (committedRows configId) providers) = [].
Proof.
  apply filter_none. intros r Hr. apply in_flat_map in Hr as [e [_ Hr]].
  apply committedRows_config in Hr. now rewrite Hr, String.eqb_refl.
Qed.

Lemma filter_negb_domainRows (projectId : string) (newDomains : list DomainConfigJson.t) :
  filter (fun d => negb (String.eqb (ProjectDomain.projectConfigId d) projectId))
         (map (domainRow projectId) newDomains) = [].
Proof.
  apply filter_none. intros d Hd. apply in_map_iff in Hd as [x [<- _]].
  cbn [domainRow ProjectDomain.projectConfigId]. now rewrite String.eqb_refl.
Qed.

Lemma reconciledStore_idem (st : Store.t) (projectId configId : string)
  (options : ProjectUpdateOptions.t) :
  reconciledStore (reconciledStore st projectId configId options)
    projectId configId options
  = reconciledStore st projectId configId options.
Proof.
  unfold reconciledStore.
  cbn [Store.projects Store.oauthProviderConfigs Store.projectDomains Store.projectUsers].
  f_equal.
  - rewrite map_map. apply map_ext. intros p. apply reconciledProject_idem.
  - destruct (config_field ConfigUpdateOptions.oauthProviders options) as [providers |];
      [ | reflexivity].
    now rewrite filter_app, filter_filter_same, filter_negb_committedRows, app_nil_r.
  - destruct (config_field ConfigUpdateOptions.domains options) as [newDomains |];
      [ | reflexivity].
    now rewrite filter_app, filter_filter_same, filter_negb_domainRows, app_nil_r.
Qed.

Lemma updateTransaction_log (st : Store.t) (project : ProjectDB.t) (projectId : string)
  (options : ProjectUpdateOptions.t) :
  snd (updateTransaction st project projectId options)
  = match config_field ConfigUpdateOptions.oauthProviders options with
    | Some oauthProviders =>
        flat_map snd
          (map (oauthProviderOps (ProjectConfigDB.id (ProjectDB.config project)))
               oauthProviders)
    | None => []
    end.
Proof.
  unfold updateTransaction. cbv zeta. cbn [snd].
  now destruct (config_field ConfigUpdateOptions.oauthProviders options).
Qed.

(** X4. Reconciliation is idempotent: applying an update a second time to
    the store that the first application left gives the same result, the
    same store and the same log lines as the first application. *)
Theorem updateProject_idempotent
  (st : Store.t) (projectId : string) (options : ProjectUpdateOptions.t) :
  let once := updateProject st projectId options in
  updateProject (outcome_store once) projectId options = once.
Proof.
  intros once. unfold once.
  destruct (find (fun p => String.eqb (Project.id p) projectId) (Store.projects st))
    as [row |] eqn:Hfind.
  - rewrite (updateProject_existing st projectId options row Hfind).
    cbn [outcome_store].
    set (configId := ProjectConfig.id (Project.config row)).
    rewrite (updateProject_existing _ projectId options _
               (find_reconciled st projectId configId options row Hfind)).
    rewrite (proj2 (reconciledProject_keys projectId configId options row)).
    fold configId. rewrite reconciledStore_idem, reconciledProject_idem.
    rewrite !updateTransaction_log.
    cbn [includeFull ProjectDB.config ProjectConfigDB.id].
    rewrite (proj2 (reconciledProject_keys projectId configId options row)).
    reflexivity.
  - rewrite (updateProject_none st projectId options Hfind).
    cbn [outcome_store]. apply (updateProject_none st projectId options Hfind).
Qed.

(** X5. An update that submits neither [domains] nor [oauthProviders]
    changes nothing but the flags it names: the returned view is the view
    of the project before the update with [credentialEnabled] and
    [isProductionMode] replaced where they are given (also when the value
    given is [false]), and the provider, domain and user tables stay as
    they were. *)
Theorem updateProject_flags_only
  (st : Store.t) (projectId : string) (options : ProjectUpdateOptions.t)
  (project : ProjectDB.t) :
  project_findUnique st projectId = Some project ->
  config_field ConfigUpdateOptions.domains options = None ->
  config_field ConfigUpdateOptions.oauthProviders options = None ->
  let before := fst (projectJsonFromDbType project) in
  let out := updateProject st projectId options in
  outcome_result out
  = Returns (Some (withFlags
      match config_field ConfigUpdateOptions.credentialEnabled options with
      | Some b => b
      | None => EvaluatedConfig.credentialEnabled (ProjectJson.evaluatedConfig before)
      end
      match ProjectUpdateOptions.isProductionMode options with
      | Some b => b
      | None => ProjectJson.isProductionMode before
      end
      before)) /\
  Store.oauthProviderConfigs (outcome_store out) = Store.oauthProviderConfigs st /\
  Store.projectDomains (outcome_store out) = Store.projectDomains st /\
  Store.projectUsers (outcome_store out) = Store.projectUsers st.
Proof.
  intros Hfind Hdomains Hproviders before out.
  destruct (project_findUnique_row _ _ _ Hfind) as [row [Hrow ->]].
  destruct (find_some _ _ Hrow) as [_ Hid]. apply String.eqb_eq in Hid.
  unfold out, before. rewrite (updateProject_existing st projectId options row Hrow).
  cbn [outcome_result outcome_store]. unfold reconciledStore.
  rewrite Hdomains, Hproviders.
  cbn [Store.oauthProviderConfigs Store.projectDomains Store.projectUsers].
  split; [ | repeat split].
  unfold reconciledProject, productionUpdate, credentialUpdate,
    with_isProductionMode, with_credentialEnabled, withFlags, projectJsonFromDbType,
    includeFull.
  destruct row as [id name description created mode [cid localhost enabled email]].
  cbn [Project.id] in Hid. subst id.
  destruct (config_field ConfigUpdateOptions.credentialEnabled options) as [credential |];
  destruct (ProjectUpdateOptions.isProductionMode options) as [production |];
  simpl; rewrite ?String.eqb_refl; simpl; rewrite ?String.eqb_refl; reflexivity.
Qed.

Lemma updateProject_flags_only_witness :
  let options :=
    ProjectUpdateOptions.Build None
      (Some (ConfigUpdateOptions.Build None None (Some false))) in
  let before := fst (projectJsonFromDbType (includeFull Sample.store Sample.project_p1)) in
  outcome_result (updateProject Sample.store "p1" options)
  = Returns (Some (withFlags false false before)).
Proof.
  intros options before.
  exact (proj1 (updateProject_flags_only Sample.store "p1" options
                  (includeFull Sample.store Sample.project_p1)
                  eq_refl eq_refl eq_refl)).
Defined.

Lemma filter_key_other {A : Type} (key : A -> string) (wanted removed : string)
  (rows : list A) :
  wanted <> removed ->
  filter (fun r => String.eqb (key r) wanted)
    (filter (fun r => negb (String.eqb (key r) removed)) rows)
  = filter (fun r => String.eqb (key r) wanted) rows.
Proof.
  intros Hne. induction rows as [| r rows IH]; simpl; [reflexivity | ].
  destruct (String.eqb (key r) removed) eqn:Hr; simpl.
  - apply String.eqb_eq in Hr.
    replace (String.eqb (key r) wanted) with false; [exact IH | ].
    symmetry. apply String.eqb_neq. congruence.
  - now rewrite IH.
Qed.

Lemma filter_committedRows_other (wanted configId : string)
  (providers : list OauthProviderUpdateOptions.t) :
  wanted <> configId ->
  filter (fun p => String.eqb (OauthProviderConfig.projectConfigId p) wanted)
         (flat_map (committedRows configId) providers) = [].
Proof.
  intros Hne. apply filter_none. intros r Hr. apply in_flat_map in Hr as [e [_ Hr]].
  apply committedRows_config in Hr. rewrite Hr. apply String.eqb_neq. congruence.
Qed.

(** X6. What an update of an existing project leaves alone: the user
    table; the provider rows of every config other than the project's own;
    the domain rows under every key other than the project id; the ids and
    the order of the project rows; and every project row that has neither
    the project's id nor its config's id. *)
Theorem updateProject_frame
  (st : Store.t) (projectId : string) (options : ProjectUpdateOptions.t)
  (project : ProjectDB.t) :
  project_findUnique st projectId = Some project ->
  let st' := outcome_store (updateProject st projectId options) in
  let configId := ProjectConfigDB.id (ProjectDB.config project) in
  Store.projectUsers st' = Store.projectUsers st /\
  (forall other, other <> configId ->
     filter (fun p => String.eqb (OauthProviderConfig.projectConfigId p) other)
            (Store.oauthProviderConfigs st')
     = filter (fun p => String.eqb (OauthProviderConfig.projectConfigId p) other)
              (Store.oauthProviderConfigs st)) /\
  (forall other, other <> projectId ->
     projectDomain_findMany st' other = projectDomain_findMany st other) /\
  map Project.id (Store.projects st') = map Project.id (Store.projects st) /\
  (forall p, In p (Store.projects st) ->
     Project.id p <> projectId ->
     ProjectConfig.id (Project.config p) <> configId ->
     In p (Store.projects st')).
Proof.
  intros Hfind st' configId.
  destruct (project_findUnique_row _ _ _ Hfind) as [row [Hrow ->]].
  unfold st'. rewrite (updateProject_existing st projectId options row Hrow).
  cbn [outcome_store].
  change configId with (ProjectConfig.id (Project.config row)).
  unfold reconciledStore.
  cbn [Store.projects Store.oauthProviderConfigs Store.projectDomains Store.projectUsers].
  split; [reflexivity | ]. split; [ | split; [ | split]].
  - intros other Hne.
    destruct (config_field ConfigUpdateOptions.oauthProviders options) as [providers |];
      [ | reflexivity].
    rewrite filter_app, (filter_committedRows_other _ _ _ Hne), app_nil_r.
    apply (filter_key_other OauthProviderConfig.projectConfigId _ _ _ Hne).
  - intros other Hne. unfold projectDomain_findMany. cbn [Store.projectDomains].
    destruct (config_field ConfigUpdateOptions.domains options) as [newDomains |];
      [ | reflexivity].
    rewrite filter_app, (filter_domainRows_other _ _ _ Hne), app_nil_r.
    apply (filter_key_other ProjectDomain.projectConfigId _ _ _ Hne).
  - rewrite map_map. apply map_ext. intros p. apply reconciledProject_keys.
  - intros p Hin Hid Hcfg. apply in_map_iff. exists p. split; [ | exact Hin].
    unfold reconciledProject, productionUpdate, credentialUpdate.
    apply String.eqb_neq in Hid. apply String.eqb_neq in Hcfg.
    destruct (config_field ConfigUpdateOptions.credentialEnabled options);
      rewrite ?Hcfg;
      destruct (ProjectUpdateOptions.isProductionMode options);
      rewrite ?Hid; reflexivity.
Qed.

Lemma updateProject_frame_witness :
  Store.projectUsers (outcome_store (updateProject Sample.store "p1" Sample.providersUpdate))
  = Store.projectUsers Sample.store.
Proof.
  exact (proj1 (updateProject_frame Sample.store "p1" Sample.providersUpdate
                  (includeFull Sample.store Sample.project_p1) eq_refl)).
Defined.






(** ** Project assembler *)

Lemma oauthProviderFromDbType_one (projectId : string) (p : OauthProviderConfig.t) :
  length (fst (oauthProviderFromDbType projectId p))
  + length (snd (oauthProviderFromDbType projectId p)) = 1.
Proof.
  unfold oauthProviderFromDbType.
  destruct (OauthProviderConfig.proxiedOauthConfig p); [reflexivity | ].
  destruct (OauthProviderConfig.standardOauthConfig p); reflexivity.
Qed.

(** X8. Every provider row of a raw record ends up either as one entry of
    the assembled provider list or as one logged line, never as both and
    never as neither: the entries and the lines together are as many as the
    rows.  A row that has a proxied sub-record is shown as shared, whatever
    its standard sub-record holds. *)
Theorem assembly_view_or_warning (project : ProjectDB.t) :
  let rows := ProjectConfigDB.oauthProviderConfigs (ProjectDB.config project) in
  let assembled := projectJsonFromDbType project in
  length (EvaluatedConfig.oauthProviders (ProjectJson.evaluatedConfig (fst assembled)))
  + length (snd assembled) = length rows /\
  (forall p proxied, In p rows ->
     OauthProviderConfig.proxiedOauthConfig p = Some proxied ->
     In (SharedProviderJson (OauthProviderConfig.id p)
           (fromDBSharedProvider (ProxiedOauthConfig.type proxied)))
        (EvaluatedConfig.oauthProviders (ProjectJson.evaluatedConfig (fst assembled)))).
Proof.
  intros rows assembled. unfold assembled. split.
  - rewrite projectJsonFromDbType_oauthProviders.
    unfold projectJsonFromDbType. cbn [snd]. rewrite flat_map_snd_map. fold rows.
    induction rows as [| p rows IH]; [reflexivity | ].
    cbn [flat_map]. rewrite !length_app. cbn [length].
    pose proof (oauthProviderFromDbType_one (ProjectDB.id project) p). lia.
  - intros p proxied Hin Hp. rewrite projectJsonFromDbType_oauthProviders.
    apply in_flat_map. exists p. split; [exact Hin | ].
    unfold oauthProviderFromDbType. rewrite Hp. now left.
Qed.

Lemma assembly_view_or_warning_witness :
  In (SharedProviderJson "github" "shared-github")
     (EvaluatedConfig.oauthProviders
        (ProjectJson.evaluatedConfig (fst (projectJsonFromDbType Sample.rawProject)))).
Proof.
  apply (proj2 (assembly_view_or_warning Sample.rawProject) Sample.githubProvider
           (ProxiedOauthConfig.Build Proxied_GITHUB)).
  - simpl. auto.
  - reflexivity.
Defined.

(** ** Project creator *)

(** [createProject] for a caller whose row is found and whose managed ids
    are iterable, in closed form. *)
Lemma createProject_closed
  (st : Store.t) (uuid configId : string) (now : Z)
  (projectUser : ServerUserJson.t) (projectOptions : ProjectOptions.t)
  (stored : ProjectUser.t) (managed : list JsValue) :
  ServerUserJson.projectId projectUser = "internal" ->
  projectUser_findUniqueOrThrow st "internal" (ServerUserJson.id projectUser)
    = Returns stored ->
  Js.spread_array
    (managedProjectIdsTx (Js.nullish (ProjectUser.serverMetadata stored) (JsObject [])))
    = Returns managed ->
  let project :=
    includeFull (insertedStore st uuid configId now projectOptions)
      (createdProjectRow uuid configId now projectOptions) in
  createProject st uuid configId now projectUser projectOptions
  = MkOutcome (Returns (fst (projectJsonFromDbType project)))
      (createdStore st uuid configId now projectOptions stored managed)
      (snd (projectJsonFromDbType project)).
Proof.
  intros Hinternal Hstored Hmanaged project.
  unfold createProject. rewrite Hinternal.
  change (negb ("internal" =? "internal")) with false. cbv iota.
  unfold createProjectTx. rewrite proxiedProviderRows_default. cbn [bind].
  match goal with
  | [ |- context [projectUser_findUniqueOrThrow ?s _ _] ] =>
      change (projectUser_findUniqueOrThrow s "internal" (ServerUserJson.id projectUser))
        with (projectUser_findUniqueOrThrow st "internal" (ServerUserJson.id projectUser))
  end.
  rewrite Hstored. cbn [bind]. rewrite Hmanaged. cbn [bind Store.projectUsers].
  assert (Hhit : In stored (Store.projectUsers st) /\
                 String.eqb (ProjectUser.projectId stored) "internal"
                 && String.eqb (ProjectUser.projectUserId stored)
                               (ProjectUser.projectUserId stored) = true).
  { unfold projectUser_findUniqueOrThrow in Hstored.
    destruct (find _ (Store.projectUsers st)) as [u |] eqn:Hfind; [ | discriminate].
    injection Hstored as ->. destruct (find_some _ _ Hfind) as [Hin Hsel].
    split; [exact Hin | ]. apply andb_true_iff in Hsel as [Hp _].
    now rewrite Hp, String.eqb_refl. }
  destruct Hhit as [Hin Hsel].
  rewrite (update_where_hit _ _ _ stored Hin Hsel). cbn [bind].
  fold (createdProjectRow uuid configId now projectOptions).
  fold (defaultProviderRows configId).
  fold (insertedStore st uuid configId now projectOptions).
  fold project.
  now destruct (projectJsonFromDbType project).
Qed.

Lemma projectUser_found (st : Store.t) (projectId projectUserId : string)
  (stored : ProjectUser.t) :
  projectUser_findUniqueOrThrow st projectId projectUserId = Returns stored ->
  In stored (Store.projectUsers st) /\
  ProjectUser.projectId stored = projectId /\
  ProjectUser.projectUserId stored = projectUserId.
Proof.
  unfold projectUser_findUniqueOrThrow.
  destruct (find _ (Store.projectUsers st)) as [u |] eqn:Hfind; [ | discriminate].
  intros H. injection H as ->. destruct (find_some _ _ Hfind) as [Hin Hsel].
  apply andb_true_iff in Hsel as [Hp Hu].
  apply String.eqb_eq in Hp. apply String.eqb_eq in Hu. now repeat split.
Qed.

(** X9. [createProject] refuses a caller that is not of the "internal"
    context, and fails for a caller of the "internal" context that has no
    row in storage; in both cases it throws, the store stays as it was (the
    project is not created) and nothing is logged. *)
Theorem createProject_rejects
  (st : Store.t) (uuid configId : string) (now : Z)
  (projectUser : ServerUserJson.t) (projectOptions : ProjectOptions.t) :
  (ServerUserJson.projectId projectUser <> "internal" ->
   createProject st uuid configId now projectUser projectOptions
   = MkOutcome (Throws "Only internal project users can create projects") st []) /\
  ((forall u, In u (Store.projectUsers st) ->
      ProjectUser.projectId u = "internal" ->
      ProjectUser.projectUserId u <> ServerUserJson.id projectUser) ->
   exists msg,
     createProject st uuid configId now projectUser projectOptions
     = MkOutcome (Throws msg) st []).
Proof.
  unfold createProject. split.
  - intros H. apply String.eqb_neq in H. now rewrite H.
  - intros Hnone.
    destruct (String.eqb (ServerUserJson.projectId projectUser) "internal");
      cbn [negb]; [ | eexists; reflexivity].
    unfold createProjectTx. rewrite proxiedProviderRows_default. cbn [bind].
    unfold projectUser_findUniqueOrThrow. cbn [Store.projectUsers].
    rewrite find_all_false; [cbn [bind]; eexists; reflexivity | ].
    intros u Hu.
    destruct (String.eqb (ProjectUser.projectId u) "internal") eqn:Hp; [ | reflexivity].
    apply String.eqb_eq in Hp. cbn [andb]. apply String.eqb_neq. now apply Hnone.
Qed.

Lemma createProject_rejects_witness :
  createProject Sample.store "p2" "c2" 1700000000500
    (ServerUserJson.Build "p1" "u1" JsNull) Sample.options
  = MkOutcome (Throws "Only internal project users can create projects") Sample.store [] /\
  exists msg,
    createProject Sample.store "p2" "c2" 1700000000500
      (ServerUserJson.Build "internal" "u7" JsNull) Sample.options
    = MkOutcome (Throws msg) Sample.store [].
Proof.
  split.
  - apply (proj1 (createProject_rejects Sample.store "p2" "c2" 1700000000500
                    (ServerUserJson.Build "p1" "u1" JsNull) Sample.options)).
    discriminate.
  - apply (proj2 (createProject_rejects Sample.store "p2" "c2" 1700000000500
                    (ServerUserJson.Build "internal" "u7" JsNull) Sample.options)).
    simpl. intros u [<- | []] _. discriminate.
Defined.

Lemma lookup_set_same (k : string) (v : JsValue) (props : list (string * JsValue)) :
  Js.lookup k (Js.set k v props) = Some v.
Proof.
  induction props as [| [k' v'] props IH]; simpl.
  - now rewrite String.eqb_refl.
  - destruct (String.eqb k k') eqn:Hk; simpl; rewrite Hk; [reflexivity | exact IH].
Qed.

Lemma lookup_set_other (k k0 : string) (v : JsValue) (props : list (string * JsValue)) :
  k <> k0 -> Js.lookup k (Js.set k0 v props) = Js.lookup k props.
Proof.
  intros Hne. induction props as [| [k' v'] props IH]; simpl.
  - apply String.eqb_neq in Hne. now rewrite Hne.
  - destruct (String.eqb k0 k') eqn:Hk0; simpl.
    + apply String.eqb_eq in Hk0. subst k'.
      apply String.eqb_neq in Hne. now rewrite Hne.
    + destruct (String.eqb k k'); [reflexivity | exact IH].
Qed.

Lemma find_update {A : Type} (sel : A -> bool) (f : A -> A) (rows : list A) :
  (forall r, sel (f r) = sel r) ->
  find sel (map (fun r => if sel r then f r else r) rows)
  = option_map f (find sel rows).
Proof.
  intros Hf. induction rows as [| r rows IH]; simpl; [reflexivity | ].
  destruct (sel r) eqn:Hr.
  - now rewrite Hf, Hr.
  - now rewrite Hr.
Qed.

Lemma length_filter_map {A : Type} (p : A -> bool) (h : A -> A) (rows : list A) :
  (forall r, p (h r) = p r) ->
  length (filter p (map h rows)) = length (filter p rows).
Proof.
  intros Hp. induction rows as [| r rows IH]; simpl; [reflexivity | ].
  rewrite Hp. destruct (p r); simpl; now rewrite IH.
Qed.

(** The administrator's row after a creation. *)
Lemma createdStore_stored_row
  (st : Store.t) (uuid configId : string) (now : Z)
  (projectOptions : ProjectOptions.t) (userId : string)
  (stored : ProjectUser.t) (managed : list JsValue) :
  projectUser_findUniqueOrThrow st "internal" userId = Returns stored ->
  projectUser_findUniqueOrThrow
    (createdStore st uuid configId now projectOptions stored managed) "internal" userId
  = Returns (with_serverMetadata
               (createdMetadata (ProjectUser.serverMetadata stored) managed uuid) stored).
Proof.
  intros Hstored. destruct (projectUser_found _ _ _ _ Hstored) as [_ [_ Hid]].
  unfold projectUser_findUniqueOrThrow in *.
  unfold createdStore. cbn [Store.projectUsers]. rewrite Hid.
  rewrite (find_update
             (fun u => String.eqb (ProjectUser.projectId u) "internal"
                       && String.eqb (ProjectUser.projectUserId u) userId)
             (with_serverMetadata
                (createdMetadata (ProjectUser.serverMetadata stored) managed uuid)))
    by reflexivity.
  destruct (find _ (Store.projectUsers st)) as [u |]; [ | discriminate].
  injection Hstored as ->. reflexivity.
Qed.

Lemma ManagedList_spread (serverMetadata : JsValue) (ids : list string) :
  ManagedList serverMetadata ids ->
  Js.spread_array (managedProjectIdsTx (Js.nullish serverMetadata (JsObject [])))
  = Returns (map JsString ids).
Proof.
  intros H. destruct H as [| props Hk | props Hk | props ids Hk];
    unfold managedProjectIdsTx; cbn [Js.nullish Js.get]; try rewrite Hk; reflexivity.
Qed.

Lemma createdMetadata_ManagedList (serverMetadata : JsValue) (ids : list string)
  (uuid : string) :
  ManagedList (createdMetadata serverMetadata (map JsString ids) uuid) (ids ++ [uuid]).
Proof.
  unfold createdMetadata. apply managed_key_strings.
  rewrite lookup_set_same. now rewrite map_app.
Qed.

(** X10. A creation registers the new project with its creator: when the
    creator's stored metadata is well formed with the managed list [ids],
    [createProject] returns, and afterwards the creator's stored metadata
    is well formed with the managed list [ids] followed by the new project
    id, which is what [listProjectIds] then reads. *)
Theorem createProject_registers_project
  (st : Store.t) (uuid configId : string) (now : Z)
  (projectUser : ServerUserJson.t) (projectOptions : ProjectOptions.t)
  (stored : ProjectUser.t) (ids : list string) :
  ServerUserJson.projectId projectUser = "internal" ->
  projectUser_findUniqueOrThrow st "internal" (ServerUserJson.id projectUser)
    = Returns stored ->
  ManagedList (ProjectUser.serverMetadata stored) ids ->
  exists json st' log stored',
    createProject st uuid configId now projectUser projectOptions
      = MkOutcome (Returns json) st' log /\
    projectUser_findUniqueOrThrow st' "internal" (ServerUserJson.id projectUser)
      = Returns stored' /\
    ManagedList (ProjectUser.serverMetadata stored') (ids ++ [uuid]) /\
    listProjectIds
      (ServerUserJson.Build "internal" (ServerUserJson.id projectUser)
         (ProjectUser.serverMetadata stored'))
    = Returns (ids ++ [uuid])%list.
Proof.
  intros Hinternal Hstored Hmanaged.
  pose proof (ManagedList_spread _ _ Hmanaged) as Hspread.
  rewrite (createProject_closed st uuid configId now projectUser projectOptions
             stored (map JsString ids) Hinternal Hstored Hspread).
  do 4 eexists. split; [reflexivity | ]. split.
  - apply (createdStore_stored_row st uuid configId now projectOptions _ _ _ Hstored).
  - split.
    + apply createdMetadata_ManagedList.
    + apply listProjectIds_ManagedList. apply createdMetadata_ManagedList.
Qed.

Lemma createProject_registers_project_witness :
  exists json st' log stored',
    createProject Sample.store "p2" "c2" 1700000000500 Sample.adminJson Sample.options
      = MkOutcome (Returns json) st' log /\
    projectUser_findUniqueOrThrow st' "internal" "u1" = Returns stored' /\
    ManagedList (ProjectUser.serverMetadata stored') ["p1"; "p2"] /\
    listProjectIds
      (ServerUserJson.Build "internal" "u1" (ProjectUser.serverMetadata stored'))
    = Returns ["p1"; "p2"].
Proof.
  apply (createProject_registers_project Sample.store "p2" "c2" 1700000000500
           Sample.adminJson Sample.options Sample.admin ["p1"]);
    try reflexivity.
  apply (managed_key_strings _ ["p1"]). reflexivity.
Defined.

(** X11. A creation keeps the other keys of the creator's metadata: when
    the stored metadata is an object, the metadata written back is an
    object in which every key other than [managedProjectIds] holds what it
    held before, and [managedProjectIds] holds the former items followed by
    the new project id. *)
Theorem createProject_keeps_metadata_keys
  (st : Store.t) (uuid configId : string) (now : Z)
  (projectUser : ServerUserJson.t) (projectOptions : ProjectOptions.t)
  (stored : ProjectUser.t) (props : list (string * JsValue))
  (managed : list JsValue) :
  ServerUserJson.projectId projectUser = "internal" ->
  projectUser_findUniqueOrThrow st "internal" (ServerUserJson.id projectUser)
    = Returns stored ->
  ProjectUser.serverMetadata stored = JsObject props ->
  Js.spread_array (managedProjectIdsTx (JsObject props)) = Returns managed ->
  exists json st' log stored' props',
    createProject st uuid configId now projectUser projectOptions
      = MkOutcome (Returns json) st' log /\
    projectUser_findUniqueOrThrow st' "internal" (ServerUserJson.id projectUser)
      = Returns stored' /\
    ProjectUser.serverMetadata stored' = JsObject props' /\
    Js.lookup "managedProjectIds" props'
      = Some (JsArray (managed ++ [JsString uuid])%list) /\
    (forall k, k <> "managedProjectIds" -> Js.lookup k props' = Js.lookup k props).
Proof.
  intros Hinternal Hstored Hprops Hspread.
  assert (Hspread' :
    Js.spread_array
      (managedProjectIdsTx (Js.nullish (ProjectUser.serverMetadata stored) (JsObject [])))
    = Returns managed) by now rewrite Hprops.
  rewrite (createProject_closed st uuid configId now projectUser projectOptions
             stored managed Hinternal Hstored Hspread').
  do 5 eexists. split; [reflexivity | ]. split.
  - apply (createdStore_stored_row st uuid configId now projectOptions _ _ _ Hstored).
  - cbn [with_serverMetadata ProjectUser.serverMetadata]. unfold createdMetadata.
    rewrite Hprops. cbn [Js.nullish Js.spread_object].
    split; [reflexivity | ]. split.
    + apply lookup_set_same.
    + intros k Hk. now apply lookup_set_other.
Qed.

Lemma createProject_keeps_metadata_keys_witness :
  exists json st' log stored' props',
    createProject Sample.store "p2" "c2" 1700000000500 Sample.adminJson Sample.options
      = MkOutcome (Returns json) st' log /\
    projectUser_findUniqueOrThrow st' "internal" "u1" = Returns stored' /\
    ProjectUser.serverMetadata stored' = JsObject props' /\
    Js.lookup "managedProjectIds" props'
      = Some (JsArray ([JsString "p1"] ++ [JsString "p2"])%list) /\
    (forall k, k <> "managedProjectIds" ->
       Js.lookup k props'
       = Js.lookup k [("managedProjectIds", JsArray [JsString "p1"])]).
Proof.
  exact (createProject_keeps_metadata_keys Sample.store "p2" "c2" 1700000000500
           Sample.adminJson Sample.options Sample.admin
           [("managedProjectIds", JsArray [JsString "p1"])] [JsString "p1"]
           eq_refl eq_refl eq_refl eq_refl).
Defined.

Lemma createProject_returns_inv
  (st : Store.t) (uuid configId : string) (now : Z)
  (projectUser : ServerUserJson.t) (projectOptions : ProjectOptions.t)
  (json : ProjectJson.t) :
  outcome_result (createProject st uuid configId now projectUser projectOptions)
    = Returns json ->
  ServerUserJson.projectId projectUser = "internal" /\
  json = fst (projectJsonFromDbType
                (includeFull (insertedStore st uuid configId now projectOptions)
                   (createdProjectRow uuid configId now projectOptions))).
Proof.
  unfold createProject.
  destruct (String.eqb (ServerUserJson.projectId projectUser) "internal") eqn:Hinternal;
    cbn [negb]; [ | discriminate].
  apply String.eqb_eq in Hinternal.
  unfold createProjectTx. rewrite proxiedProviderRows_default. cbn [bind].
  fold (createdProjectRow uuid configId now projectOptions).
  fold (defaultProviderRows configId).
  fold (insertedStore st uuid configId now projectOptions).
  destruct (projectUser_findUniqueOrThrow _ "internal" (ServerUserJson.id projectUser))
    as [stored | msg]; cbn [bind]; [ | discriminate].
  destruct (Js.spread_array _) as [managed | msg]; cbn [bind]; [ | discriminate].
  destruct (update_where _ _ _) as [users | msg]; cbn [bind]; [ | discriminate].
  destruct (projectJsonFromDbType _) as [view warned] eqn:Hview.
  cbn [outcome_result fst]. intros H. injection H as <-. now split.
Qed.

(** X12. The view that [createProject] returns echoes its input: only a
    caller of the "internal" context gets a view at all, and the view then
    carries the generated id, the submitted display name and description,
    the creation time, [isProductionMode = false], the id of the new
    config, the submitted [allowLocalhost] and [credentialEnabled], and no
    email config. *)
Theorem createProject_view_echoes_options
  (st : Store.t) (uuid configId : string) (now : Z)
  (projectUser : ServerUserJson.t) (projectOptions : ProjectOptions.t)
  (json : ProjectJson.t) :
  outcome_result (createProject st uuid configId now projectUser projectOptions)
    = Returns json ->
  ServerUserJson.projectId projectUser = "internal" /\
  ProjectJson.id json = uuid /\
  ProjectJson.displayName json = ProjectOptions.displayName projectOptions /\
  ProjectJson.description json = ProjectOptions.description projectOptions /\
  ProjectJson.createdAtMillis json = now /\
  ProjectJson.isProductionMode json = false /\
  EvaluatedConfig.id (ProjectJson.evaluatedConfig json) = configId /\
  EvaluatedConfig.allowLocalhost (ProjectJson.evaluatedConfig json)
    = ProjectOptions.allowLocalhost projectOptions /\
  EvaluatedConfig.credentialEnabled (ProjectJson.evaluatedConfig json)
    = ProjectOptions.credentialEnabled projectOptions /\
  EvaluatedConfig.emailConfig (ProjectJson.evaluatedConfig json) = None.
Proof.
  intros H. destruct (createProject_returns_inv _ _ _ _ _ _ _ H) as [Hinternal ->].
  split; [exact Hinternal | ]. repeat split.
Qed.

Lemma createProject_view_echoes_options_witness :
  exists json,
    outcome_result
      (createProject Sample.store "p2" "c2" 1700000000500 Sample.adminJson Sample.options)
      = Returns json /\
    ProjectJson.id json = "p2" /\
    EvaluatedConfig.allowLocalhost (ProjectJson.evaluatedConfig json) = true /\
    EvaluatedConfig.credentialEnabled (ProjectJson.evaluatedConfig json) = false.
Proof.
  eexists. split; [reflexivity | ].
  pose proof (createProject_view_echoes_options Sample.store "p2" "c2" 1700000000500
                Sample.adminJson Sample.options _ eq_refl)
    as [_ [Hid [_ [_ [_ [_ [_ [Hlocal [Hcred _]]]]]]]]].
  exact (conj Hid (conj Hlocal Hcred)).
Defined.

Lemma includeFull_created
  (st : Store.t) (uuid configId : string) (now : Z)
  (projectOptions : ProjectOptions.t) (stored : ProjectUser.t)
  (managed : list JsValue) (row : Project.t) :
  includeFull (createdStore st uuid configId now projectOptions stored managed) row
  = includeFull (insertedStore st uuid configId now projectOptions) row.
Proof.
  unfold includeFull, createdStore, insertedStore.
  cbn [Store.oauthProviderConfigs Store.projectDomains Store.projectUsers].
  f_equal. apply length_filter_map. intros u.
  now destruct (String.eqb (ProjectUser.projectId u) "internal"
                && String.eqb (ProjectUser.projectUserId u)
                              (ProjectUser.projectUserId stored)).
Qed.

Lemma includeFull_inserted
  (st : Store.t) (uuid configId : string) (now : Z)
  (projectOptions : ProjectOptions.t) (row : Project.t) :
  ProjectConfig.id (Project.config row) <> configId ->
  includeFull (insertedStore st uuid configId now projectOptions) row
  = includeFull st row.
Proof.
  intros Hne. apply not_eq_sym in Hne. apply String.eqb_neq in Hne.
  unfold includeFull, insertedStore.
  cbn [Store.oauthProviderConfigs Store.projectDomains Store.projectUsers].
  rewrite filter_app. cbn [defaultProviderRows filter OauthProviderConfig.projectConfigId].
  rewrite Hne. now rewrite app_nil_r.
Qed.

Lemma find_app_found {A : Type} (f : A -> bool) (l l' : list A) (x : A) :
  find f l = Some x -> find f (l ++ l') = Some x.
Proof.
  induction l as [| y l IH]; simpl; [discriminate | ].
  destruct (f y); [trivial | exact IH].
Qed.

Lemma find_app_last {A : Type} (f : A -> bool) (l : list A) (x : A) :
  (forall y, In y l -> f y = false) -> f x = true -> find f (l ++ [x]) = Some x.
Proof.
  intros Hl Hx. induction l as [| y l IH]; simpl; [now rewrite Hx | ].
  rewrite (Hl y (or_introl eq_refl)). apply IH. intros z Hz. apply Hl. now right.
Qed.

Lemma find_created
  (st : Store.t) (uuid configId : string) (now : Z)
  (projectOptions : ProjectOptions.t) (stored : ProjectUser.t)
  (managed : list JsValue) :
  (forall p, In p (Store.projects st) -> Project.id p <> uuid) ->
  find (fun p => String.eqb (Project.id p) uuid)
       (Store.projects (createdStore st uuid configId now projectOptions stored managed))
  = Some (createdProjectRow uuid configId now projectOptions).
Proof.
  intros Hfresh. unfold createdStore. cbn [Store.projects].
  apply find_app_last.
  - intros p Hp. apply String.eqb_neq. now apply Hfresh.
  - cbn [createdProjectRow Project.id]. apply String.eqb_refl.
Qed.

(** X13. A created project can be read back: when the generated id is not
    the id of a stored project, [getProject] with that id, on the store
    that [createProject] left, returns the view that [createProject]
    returned. *)
Theorem getProject_after_createProject
  (st : Store.t) (uuid configId : string) (now : Z)
  (projectUser : ServerUserJson.t) (projectOptions : ProjectOptions.t)
  (stored : ProjectUser.t) (managed : list JsValue) :
  ServerUserJson.projectId projectUser = "internal" ->
  projectUser_findUniqueOrThrow st "internal" (ServerUserJson.id projectUser)
    = Returns stored ->
  Js.spread_array
    (managedProjectIdsTx (Js.nullish (ProjectUser.serverMetadata stored) (JsObject [])))
    = Returns managed ->
  (forall p, In p (Store.projects st) -> Project.id p <> uuid) ->
  let out := createProject st uuid configId now projectUser projectOptions in
  exists json,
    outcome_result out = Returns json /\
    outcome_result (getProject (outcome_store out) uuid) = Returns (Some json).
Proof.
  intros Hinternal Hstored Hmanaged Hfresh out. unfold out.
  rewrite (createProject_closed st uuid configId now projectUser projectOptions
             stored managed Hinternal Hstored Hmanaged).
  eexists. split; [reflexivity | ]. cbn [outcome_store].
  rewrite (getProject_existing _ uuid _
             (find_created st uuid configId now projectOptions stored managed Hfresh)).
  cbn [outcome_result]. now rewrite includeFull_created.
Qed.

Lemma getProject_after_createProject_witness :
  let out :=
    createProject Sample.store "p2" "c2" 1700000000500 Sample.adminJson Sample.options in
  exists json,
    outcome_result out = Returns json /\
    outcome_result (getProject (outcome_store out) "p2") = Returns (Some json).
Proof.
  apply (getProject_after_createProject Sample.store "p2" "c2" 1700000000500
           Sample.adminJson Sample.options Sample.admin [JsString "p1"]);
    try reflexivity.
  simpl. intros p [<- | []]. discriminate.
Defined.

(** X14. A creation does not disturb the projects that exist: for a stored
    project whose config has another id than the new config, [getProject]
    returns after the creation what it returned before it. *)
Theorem createProject_keeps_other_projects
  (st : Store.t) (uuid configId : string) (now : Z)
  (projectUser : ServerUserJson.t) (projectOptions : ProjectOptions.t)
  (stored : ProjectUser.t) (managed : list JsValue)
  (projectId : string) (project : ProjectDB.t) :
  ServerUserJson.projectId projectUser = "internal" ->
  projectUser_findUniqueOrThrow st "internal" (ServerUserJson.id projectUser)
    = Returns stored ->
  Js.spread_array
    (managedProjectIdsTx (Js.nullish (ProjectUser.serverMetadata stored) (JsObject [])))
    = Returns managed ->
  project_findUnique st projectId = Some project ->
  ProjectConfigDB.id (ProjectDB.config project) <> configId ->
  let out := createProject st uuid configId now projectUser projectOptions in
  outcome_result (getProject (outcome_store out) projectId)
  = outcome_result (getProject st projectId).
Proof.
  intros Hinternal Hstored Hmanaged Hfind Hne out. unfold out.
  destruct (project_findUnique_row _ _ _ Hfind) as [row [Hrow ->]].
  rewrite (createProject_closed st uuid configId now projectUser projectOptions
             stored managed Hinternal Hstored Hmanaged).
  cbn [outcome_store].
  assert (Hrow' :
    find (fun p => String.eqb (Project.id p) projectId)
         (Store.projects (createdStore st uuid configId now projectOptions stored managed))
    = Some row).
  { unfold createdStore. cbn [Store.projects]. now apply find_app_found. }
  rewrite (getProject_existing _ projectId row Hrow').
  rewrite (getProject_existing st projectId row Hrow).
  cbn [outcome_result]. rewrite includeFull_created.
  now rewrite (includeFull_inserted st uuid configId now projectOptions row Hne).
Qed.

Lemma createProject_keeps_other_projects_witness :
  let out :=
    createProject Sample.store "p2" "c2" 1700000000500 Sample.adminJson Sample.options in
  outcome_result (getProject (outcome_store out) "p1")
  = outcome_result (getProject Sample.store "p1").
Proof.
  apply (createProject_keeps_other_projects Sample.store "p2" "c2" 1700000000500
           Sample.adminJson Sample.options Sample.admin [JsString "p1"]
           "p1" (includeFull Sample.store Sample.project_p1));
    try reflexivity.
  discriminate.
Defined.

(** ** Project listing *)

(** The views that [listProjects] returns for the managed list [ids]. *)
Lemma listProjects_closed (st : Store.t) (projectUser : ServerUserJson.t)
  (ids : list string) :
  listProjectIds projectUser = Returns ids ->
  outcome_result (listProjects st projectUser)
  = Returns (map (fun p => fst (projectJsonFromDbType (includeFull st p)))
               (filter (fun p => includes ids (Project.id p)) (Store.projects st))) /\
  outcome_store (listProjects st projectUser) = st.
Proof.
  intros Hids. unfold listProjects, project_findMany. rewrite Hids.
  cbn [outcome_result outcome_store]. now rewrite !map_map.
Qed.

Lemma listProjects_contains (st : Store.t) (projectUser : ServerUserJson.t)
  (ids : list string) (projectId : string) (row : Project.t) :
  listProjectIds projectUser = Returns ids ->
  In projectId ids ->
  find (fun p => String.eqb (Project.id p) projectId) (Store.projects st) = Some row ->
  exists views,
    outcome_result (listProjects st projectUser) = Returns views /\
    In (fst (projectJsonFromDbType (includeFull st row))) views.
Proof.
  intros Hids Hin Hfind.
  destruct (listProjects_closed st projectUser ids Hids) as [-> _].
  eexists. split; [reflexivity | ].
  destruct (find_some _ _ Hfind) as [Hrow Hid]. apply String.eqb_eq in Hid.
  apply in_map_iff. exists row. split; [reflexivity | ].
  apply filter_In. split; [exact Hrow | ]. apply includes_In. now rewrite Hid.
Qed.

(** X15. [listProjects] throws what [listProjectIds] throws and otherwise
    returns, without touching the store, views of managed projects only:
    the id of every listed view is in the administrator's managed list, and
    the view that [getProject] returns for a managed id is listed. *)
Theorem listProjects_managed (st : Store.t) (projectUser : ServerUserJson.t) :
  (forall msg, listProjectIds projectUser = Throws msg ->
     listProjects st projectUser = MkOutcome (Throws msg) st []) /\
  (forall ids, listProjectIds projectUser = Returns ids ->
     exists views,
       outcome_result (listProjects st projectUser) = Returns views /\
       outcome_store (listProjects st projectUser) = st /\
       (forall json, In json views -> In (ProjectJson.id json) ids) /\
       (forall projectId json,
          In projectId ids ->
          outcome_result (getProject st projectId) = Returns (Some json) ->
          In json views)).
Proof.
  split.
  - intros msg H. unfold listProjects. now rewrite H.
  - intros ids Hids.
    destruct (listProjects_closed st projectUser ids Hids) as [Hresult Hstore].
    eexists. split; [exact Hresult | ]. split; [exact Hstore | ]. split.
    + intros json Hjson. apply in_map_iff in Hjson as [p [<- Hp]].
      apply filter_In in Hp as [_ Hp]. now apply includes_In in Hp.
    + intros projectId json Hin Hget.
      destruct (find (fun p => String.eqb (Project.id p) projectId) (Store.projects st))
        as [row |] eqn:Hfind.
      * rewrite (getProject_existing st projectId row Hfind) in Hget.
        cbn [outcome_result] in Hget. injection Hget as <-.
        destruct (listProjects_contains st projectUser ids projectId row Hids Hin Hfind)
          as [views [Hviews Hrow]].
        rewrite Hresult in Hviews. injection Hviews as <-. exact Hrow.
      * unfold getProject in Hget.
        rewrite (updateProject_none st projectId _ Hfind) in Hget. discriminate.
Qed.

Lemma listProjects_managed_witness :
  exists views,
    outcome_result (listProjects Sample.store Sample.adminJson) = Returns views /\
    (forall json, In json views -> In (ProjectJson.id json) ["p1"]) /\
    listProjects Sample.store Sample.bareAdminJson
    = MkOutcome (Throws "Invalid server metadata, did something go wrong?")
        Sample.store [].
Proof.
  destruct (proj2 (listProjects_managed Sample.store Sample.adminJson) ["p1"] eq_refl)
    as [views [Hviews [_ [Hids _]]]].
  exists views. split; [exact Hviews | ]. split; [exact Hids | ].
  exact (proj1 (listProjects_managed Sample.store Sample.bareAdminJson) _ eq_refl).
Defined.

Section ListingAndGuard.

Variable decodeAccessToken : string -> result DecodedAccessToken.t.
Variable getServerUser : string -> string -> option ServerUserJson.t.

(** X16. The listing and the guard agree: for a token that decodes in the
    "internal" context to an administrator, every project that
    [listProjects] returns for that administrator passes [isProjectAdmin]
    with that token, and a project that fails the guard is not listed. *)
Theorem listed_projects_pass_guard
  (st : Store.t) (adminAccessToken : string)
  (decoded : DecodedAccessToken.t) (projectUser : ServerUserJson.t)
  (views : list ProjectJson.t) :
  decodeAccessToken adminAccessToken = Returns decoded ->
  DecodedAccessToken.projectId decoded = "internal" ->
  getServerUser "internal" (DecodedAccessToken.userId decoded) = Some projectUser ->
  outcome_result (listProjects st projectUser) = Returns views ->
  (forall json, In json views ->
     isProjectAdmin decodeAccessToken getServerUser (ProjectJson.id json)
       adminAccessToken = Returns true) /\
  (forall projectId,
     isProjectAdmin decodeAccessToken getServerUser projectId adminAccessToken
       = Returns false ->
     forall json, In json views -> ProjectJson.id json <> projectId).
Proof.
  intros Hdec Hctx Huser Hviews.
  assert (Hguard : forall projectId,
    exists ids, listProjectIds projectUser = Returns ids /\
      isProjectAdmin decodeAccessToken getServerUser projectId adminAccessToken
      = Returns (includes ids projectId)).
  { intros projectId. unfold isProjectAdmin. rewrite Hdec, Hctx, Huser. cbn.
    unfold listProjects in Hviews.
    destruct (listProjectIds projectUser) as [ids | msg]; [ | discriminate].
    exists ids. now split. }
  assert (Hlisted : forall json ids, listProjectIds projectUser = Returns ids ->
    In json views -> includes ids (ProjectJson.id json) = true).
  { intros json ids Hids Hjson.
    destruct (listProjects_closed st projectUser ids Hids) as [Hresult _].
    rewrite Hresult in Hviews. injection Hviews as <-.
    apply in_map_iff in Hjson as [p [<- Hp]].
    now apply filter_In in Hp as [_ Hp]. }
  split.
  - intros json Hjson. destruct (Hguard (ProjectJson.id json)) as [ids [Hids ->]].
    now rewrite (Hlisted json ids Hids Hjson).
  - intros projectId Hfalse json Hjson Heq.
    destruct (Hguard projectId) as [ids [Hids Hadmin]].
    rewrite Hadmin in Hfalse. injection Hfalse as Hfalse.
    pose proof (Hlisted json ids Hids Hjson) as Htrue.
    rewrite Heq in Htrue. congruence.
Qed.

End ListingAndGuard.

Lemma listed_projects_pass_guard_witness :
  exists views,
    outcome_result (listProjects Sample.store Sample.adminJson) = Returns views /\
    forall json, In json views ->
      isProjectAdmin Sample.decodeAccessToken Sample.getServerUser
        (ProjectJson.id json) "admin-token" = Returns true.
Proof.
  eexists. split; [reflexivity | ].
  exact (proj1 (listed_projects_pass_guard Sample.decodeAccessToken Sample.getServerUser
                  Sample.store "admin-token"
                  (DecodedAccessToken.Build "u1" "internal") Sample.adminJson _
                  eq_refl eq_refl eq_refl eq_refl)).
Defined.

(** X17. A created project is listed for its creator: when the creator's
    stored metadata is well formed and the generated id is not the id of a
    stored project, [listProjects], on the store that [createProject] left
    and for the creator with the metadata now stored, returns a list that
    contains the view that [createProject] returned. *)
Theorem listProjects_after_createProject
  (st : Store.t) (uuid configId : string) (now : Z)
  (projectUser : ServerUserJson.t) (projectOptions : ProjectOptions.t)
  (stored : ProjectUser.t) (ids : list string) :
  ServerUserJson.projectId projectUser = "internal" ->
  projectUser_findUniqueOrThrow st "internal" (ServerUserJson.id projectUser)
    = Returns stored ->
  ManagedList (ProjectUser.serverMetadata stored) ids ->
  (forall p, In p (Store.projects st) -> Project.id p <> uuid) ->
  let out := createProject st uuid configId now projectUser projectOptions in
  exists json stored' views,
    outcome_result out = Returns json /\
    projectUser_findUniqueOrThrow (outcome_store out) "internal"
      (ServerUserJson.id projectUser) = Returns stored' /\
    outcome_result
      (listProjects (outcome_store out)
         (ServerUserJson.Build "internal" (ServerUserJson.id projectUser)
            (ProjectUser.serverMetadata stored')))
    = Returns views /\
    In json views.
Proof.
  intros Hinternal Hstored Hmanaged Hfresh out. unfold out.
  pose proof (ManagedList_spread _ _ Hmanaged) as Hspread.
  rewrite (createProject_closed st uuid configId now projectUser projectOptions
             stored (map JsString ids) Hinternal Hstored Hspread).
  cbn [outcome_result outcome_store].
  set (st' := createdStore st uuid configId now projectOptions stored (map JsString ids)).
  set (stored' :=
         with_serverMetadata
           (createdMetadata (ProjectUser.serverMetadata stored) (map JsString ids) uuid)
           stored).
  set (refreshed :=
         ServerUserJson.Build "internal" (ServerUserJson.id projectUser)
           (ProjectUser.serverMetadata stored')).
  assert (Hids : listProjectIds refreshed = Returns (ids ++ [uuid])%list).
  { apply listProjectIds_ManagedList. apply createdMetadata_ManagedList. }
  destruct (listProjects_contains st' refreshed (ids ++ [uuid]) uuid
              (createdProjectRow uuid configId now projectOptions) Hids)
    as [views [Hviews Hin]].
  - apply in_or_app. right. now left.
  - apply find_created, Hfresh.
  - exists (fst (projectJsonFromDbType
                   (includeFull (insertedStore st uuid configId now projectOptions)
                      (createdProjectRow uuid configId now projectOptions)))),
           stored', views.
    split; [reflexivity | ]. split.
    + apply (createdStore_stored_row st uuid configId now projectOptions _ _ _ Hstored).
    + split; [exact Hviews | ].
      unfold st' in Hin. now rewrite includeFull_created in Hin.
Qed.

Lemma listProjects_after_createProject_witness :
  let out :=
    createProject Sample.store "p2" "c2" 1700000000500 Sample.adminJson Sample.options in
  exists json stored' views,
    outcome_result out = Returns json /\
    projectUser_findUniqueOrThrow (outcome_store out) "internal" "u1"
      = Returns stored' /\
    outcome_result
      (listProjects (outcome_store out)
         (ServerUserJson.Build "internal" "u1" (ProjectUser.serverMetadata stored')))
    = Returns views /\
    In json views.
Proof.
  apply (listProjects_after_createProject Sample.store "p2" "c2" 1700000000500
           Sample.adminJson Sample.options Sample.admin ["p1"]);
    try reflexivity.
  - apply (managed_key_strings _ ["p1"]). reflexivity.
  - simpl. intros p [<- | []]. discriminate.
Defined.

(** ** Project creator and project assembler, continued *)

(** X18. What a creation writes: it appends one project row and the four
    default provider rows of the new config, in the order github, facebook,
    google, microsoft, writes no domain row, and rewrites no user row other
    than a row of the creator. *)
Theorem createProject_writes
  (st : Store.t) (uuid configId : string) (now : Z)
  (projectUser : ServerUserJson.t) (projectOptions : ProjectOptions.t)
  (stored : ProjectUser.t) (managed : list JsValue) :
  ServerUserJson.projectId projectUser = "internal" ->
  projectUser_findUniqueOrThrow st "internal" (ServerUserJson.id projectUser)
    = Returns stored ->
  Js.spread_array
    (managedProjectIdsTx (Js.nullish (ProjectUser.serverMetadata stored) (JsObject [])))
    = Returns managed ->
  let st' :=
    outcome_store (createProject st uuid configId now projectUser projectOptions) in
  Store.projects st'
    = (Store.projects st ++ [createdProjectRow uuid configId now projectOptions])%list /\
  Store.oauthProviderConfigs st'
    = (Store.oauthProviderConfigs st ++ defaultProviderRows configId)%list /\
  Store.projectDomains st' = Store.projectDomains st /\
  length (Store.projectUsers st') = length (Store.projectUsers st) /\
  (forall u, In u (Store.projectUsers st) ->
     ProjectUser.projectId u <> "internal" \/
     ProjectUser.projectUserId u <> ServerUserJson.id projectUser ->
     In u (Store.projectUsers st')).
Proof.
  intros Hinternal Hstored Hmanaged st'. unfold st'.
  rewrite (createProject_closed st uuid configId now projectUser projectOptions
             stored managed Hinternal Hstored Hmanaged).
  cbn [outcome_store]. unfold createdStore.
  cbn [Store.projects Store.oauthProviderConfigs Store.projectDomains Store.projectUsers].
  destruct (projectUser_found _ _ _ _ Hstored) as [_ [_ Hid]].
  repeat split.
  - apply length_map.
  - intros u Hu Hother. apply in_map_iff. exists u. split; [ | exact Hu].
    rewrite Hid. destruct Hother as [H | H]; apply String.eqb_neq in H; rewrite H.
    + reflexivity.
    + now rewrite andb_false_r.
Qed.

Lemma createProject_writes_witness :
  let st' :=
    outcome_store
      (createProject Sample.store "p2" "c2" 1700000000500 Sample.adminJson
         Sample.options) in
  Store.projects st'
    = (Store.projects Sample.store
       ++ [createdProjectRow "p2" "c2" 1700000000500 Sample.options])%list /\
  Store.projectDomains st' = Store.projectDomains Sample.store.
Proof.
  intros st'.
  destruct (createProject_writes Sample.store "p2" "c2" 1700000000500
              Sample.adminJson Sample.options Sample.admin [JsString "p1"]
              eq_refl eq_refl eq_refl) as [Hprojects [_ [Hdomains _]]].
  exact (conj Hprojects Hdomains).
Defined.

(** X19. The assembled view has no email config exactly when the raw
    record has no email service config or has one with neither
    sub-record. *)
Theorem emailConfig_absent (project : ProjectDB.t) :
  EvaluatedConfig.emailConfig
    (ProjectJson.evaluatedConfig (fst (projectJsonFromDbType project))) = None <->
  (ProjectConfigDB.emailServiceConfig (ProjectDB.config project) = None \/
   exists esc,
     ProjectConfigDB.emailServiceConfig (ProjectDB.config project) = Some esc /\
     EmailServiceConfig.proxiedEmailServiceConfig esc = None /\
     EmailServiceConfig.standardEmailServiceConfig esc = None).
Proof.
  unfold projectJsonFromDbType.
  cbn [fst ProjectJson.evaluatedConfig EvaluatedConfig.emailConfig].
  unfold emailConfigFromDbType.
  destruct (ProjectConfigDB.emailServiceConfig (ProjectDB.config project)) as [esc |].
  - destruct (EmailServiceConfig.standardEmailServiceConfig esc) eqn:Hs;
      destruct (EmailServiceConfig.proxiedEmailServiceConfig esc) eqn:Hp;
      split; try discriminate.
    + intros [H | [esc' [H [_ H']]]]; [discriminate | ].
      injection H as <-. congruence.
    + intros [H | [esc' [H [_ H']]]]; [discriminate | ].
      injection H as <-. congruence.
    + intros [H | [esc' [H [H' _]]]]; [discriminate | ].
      injection H as <-. congruence.
    + intros _. right. exists esc. now repeat split.
    + reflexivity.
  - split; [intros _; now left | reflexivity].
Qed.

Lemma emailConfig_absent_witness :
  EvaluatedConfig.emailConfig
    (ProjectJson.evaluatedConfig
       (fst (projectJsonFromDbType (includeFull Sample.store Sample.project_p1))))
  = None.
Proof.
  apply (proj2 (emailConfig_absent (includeFull Sample.store Sample.project_p1))).
  left. reflexivity.
Defined.
